(** * deeprho_v2: the simulation data provider

    A shallow embedding of [deeprho/data_provider_parallel.py] and
    [deeprho/test_provider.py].  Python's exceptions are an error monad,
    [float] values are the kernel's binary64 numbers, dictionaries and the
    file system are finite maps, and the external libraries ([popgen],
    scikit-learn, numpy's random generator) are an interface whose
    operations may themselves raise. *)

From Stdlib Require Import ZArith Reals Lra Lia.
From Stdlib Require Import PrimFloat SpecFloat FloatOps FloatAxioms.
From stdpp Require Import gmap strings list.

Set Warnings "-inexact-float".

(** ** Python values and exceptions *)

Inductive exn : Type :=
| AssertionError (msg : string)
| ZeroDivisionError
| OverflowError
| KeyError (key : string)
| NameError (name : string)
| TypeError
| ValueError
| IndexError
| StopIteration
| LibraryError (origin : string).

Inductive result (A : Type) : Type :=
| Ok (a : A)
| Raise (e : exn).
Arguments Ok {A} a.
Arguments Raise {A} e.

#[global] Instance result_ret : MRet result := @Ok.
#[global] Instance result_bind : MBind result := fun A B f m =>
  match m with
  | Ok a => f a
  | Raise e => Raise e
  end.

(** [assert cond, msg] *)
Definition py_assert (cond : bool) (msg : string) : result unit :=
  if cond then Ok tt else Raise (AssertionError msg).

(** A [for] loop whose body may raise: the elements are visited in order
    and the first exception ends the loop. *)
Fixpoint for_each {A S : Type} (body : A -> S -> result S) (xs : list A) (s : S)
  : result S :=
  match xs with
  | [] => Ok s
  | x :: xs' => s' ← body x s; for_each body xs' s'
  end.

(** [range(n)] for an integer [n]: empty when [n <= 0]. *)
Definition range (n : Z) : list Z := Z.of_nat <$> seq 0 (Z.to_nat n).

(** ** Numbers *)

(** Conversion of a Python [int] to a [float]: round to nearest even, and
    [OverflowError] from the first integer that rounds to infinity,
    [2^1024 - 2^970]. *)
Definition float_max_int : Z := 2 ^ 1024 - 2 ^ 970.

Definition float_of_int (z : Z) : result float :=
  if (Z.abs z <? float_max_int)%Z
  then Ok (SF2Prim (binary_normalize prec emax z 0 false))
  else Raise OverflowError.

(** [x / n] for a Python [float] x and an [int] n: true division raises on
    a zero divisor. *)
Definition py_truediv (x : float) (n : Z) : result float :=
  d ← float_of_int n;
  if (n =? 0)%Z then Raise ZeroDivisionError else Ok (x / d)%float.

(** [x / n] for a numpy [float64] scalar x: IEEE division, an infinity or
    a NaN (and a warning) on a zero divisor, never an exception. *)
Definition np_truediv (x : float) (n : Z) : result float :=
  d ← float_of_int n;
  Ok (x / d)%float.

Definition np_square (x : float) : float := (x * x)%float.

(** ** Sequences and arrays *)

(** [l[i]] with Python's negative indices. *)
Definition py_index {A : Type} (l : list A) (i : Z) : result A :=
  let n := Z.of_nat (length l) in
  let j := if (i <? 0)%Z then (n + i)%Z else i in
  if (j <? 0)%Z then Raise IndexError
  else match l !! Z.to_nat j with
       | Some a => Ok a
       | None => Raise IndexError
       end.

(** [l[a:b]] for [0 <= a <= b]; the slice is clipped to the sequence. *)
Definition py_slice {A : Type} (l : list A) (a b : Z) : list A :=
  take (Z.to_nat (b - a)) (drop (Z.to_nat a) l).

(** A two-dimensional numpy array of [float64], as its list of rows. *)
Abbreviation array := (list (list float)).

(** [m[:, a:b]] *)
Definition slice_columns {A : Type} (m : list (list A)) (a b : Z) : list (list A) :=
  (fun row => py_slice row a b) <$> m.

(** [np.expand_dims(np.array(l), axis=-1)] and [np.array(l).reshape(-1, 1)]
    of a flat list: one row of one entry per element. *)
Definition column (l : list float) : array := (fun v => [v]) <$> l.

(** [np.concatenate(blocks, axis=-1)]: the blocks must agree on the number
    of rows. *)
Fixpoint np_concatenate_last (blocks : list array) : result array :=
  match blocks with
  | [] => Raise ValueError
  | [b] => Ok b
  | b :: bs =>
      rest ← np_concatenate_last bs;
      if (length b =? length rest)%nat then Ok (zip_with app b rest)
      else Raise ValueError
  end.

(** ** The file system and the I/O monad *)

Inductive file : Type :=
| PickleFile (items : list array)   (* pickle.dump of a tuple of arrays *)
| TextFile (text : string).

(** Paths that exist, with what they hold. *)
Abbreviation filesystem := (gmap string file).

Definition io (A : Type) : Type := filesystem -> filesystem * result A.

#[global] Instance io_ret : MRet io := fun A a fs => (fs, Ok a).
#[global] Instance io_bind : MBind io := fun A B f m fs =>
  match m fs with
  | (fs', Ok a) => f a fs'
  | (fs', Raise e) => (fs', Raise e)
  end.

Definition lift {A : Type} (r : result A) : io A := fun fs => (fs, r).
Definition io_assert (cond : bool) (msg : string) : io unit := lift (py_assert cond msg).
Definition path_exists (p : string) : io bool :=
  fun fs => (fs, Ok (bool_decide (is_Some (fs !! p)))).
(** [open(p, 'w')] creates or truncates; writing replaces the contents. *)
Definition write_file (p : string) (f : file) : io unit :=
  fun fs => (<[p := f]> fs, Ok tt).

(** ** The external libraries *)

(** Objects of the [popgen] library that the program only passes around. *)
Class PopgenTypes : Type := {
  Demography : Type;
  RateMap : Type;
  Tree : Type;
  Replicate : Type;
  SimulatorT : Type;
}.

(** What a configuration dictionary holds. *)
Inductive value `{PopgenTypes} : Type :=
| VNone
| VFloat (f : float)
| VInt (z : Z)
| VDemography (d : Demography)
| VRateMap (m : RateMap).

Abbreviation configuration := (gmap string value).

(** [d[k]] *)
Definition dict_get `{PopgenTypes} (d : configuration) (k : string) : result value :=
  match d !! k with
  | Some v => Ok v
  | None => Raise (KeyError k)
  end.

(** [n * v] for an [int] n and a dictionary entry [v]. *)
Definition int_times_value `{PopgenTypes} (n : Z) (v : value) : result float :=
  match v with
  | VFloat f => fn ← float_of_int n; Ok (fn * f)%float
  | VInt z => float_of_int (n * z)
  | _ => Raise TypeError
  end.

(** A haplotype object: the fields the program reads. *)
Record Haplotype : Type := {
  nsites : Z;
  matrix : list (list Z);
  positions : list float;
}.

Abbreviation Genealogy := (list Tree).
Abbreviation Window := (list (list Z)).

(** The operations of [popgen], scikit-learn and numpy's random generator
    that the program calls.  Each may raise.  The simulator and the random
    generator are not deterministic: [seed] names the call they serve, so
    one interface fixes one run of the program. *)
Class Popgen `{PopgenTypes} : Type := {
  load_demography_from_file :
    string -> option string -> option Z -> result Demography;
  load_recombination_map_from_file : string -> result RateMap;
  map_sequence_length : RateMap -> float;
  Simulator : configuration -> result SimulatorT;
  Simulator_call : SimulatorT -> Z -> Z -> nat -> result (list Replicate);
  filter_replicate : Replicate -> result Replicate;
  cut_replicate : Replicate -> Z -> result (list Replicate);
  haplotype : Replicate -> Haplotype;
  rentplus : list Haplotype -> Z -> result (list Genealogy);
  rfdist : list Genealogy -> Z -> result (list float);
  triplet_dist : list Genealogy -> Z -> result (list float);
  linkage_disequilibrium : list Window -> result (list float);
  write_vcf : Replicate -> result string;
  (* sklearn.model_selection.train_test_split(x, y, test_size=t) *)
  train_test_split :
    array -> array -> float -> result (array * array * array * array);
  (* the [k]-th number the random generator hands to call [seed] *)
  random_draw : nat -> nat -> Z;
}.

(** [np.random.choice(range(n))]: some element of the range, [ValueError]
    on an empty one. *)
Definition np_random_choice `{Popgen} (seed k : nat) (n : Z) : result Z :=
  if (n <=? 0)%Z then Raise ValueError else Ok (random_draw seed k `mod` n)%Z.

(** [multiprocessing.dummy.Pool(processes)] *)
Definition Pool (processes : Z) : result Z :=
  if (processes <? 1)%Z then Raise ValueError else Ok processes.

(** ** deeprho/data_provider_parallel.py *)

Module data_provider_parallel.

Definition global_window_size : Z := 1000.
Definition window_size : Z := 50.

(** The namespace [gt_args] makes [argparse] build. *)
Record Args : Type := {
  nsam : Z;
  ndraw : Z;
  npop : Z;
  ne : float;
  ploidy : Z;
  mutation_rate : float;
  demography : option string;
  rmin : float;
  rmax : float;
  num_thread : Z;
  out : option string;
  verbose : bool;
}.

Definition recombination_rate_quadratic_interpolation
    (nsam i : Z) (rmin rmax : float) : result float :=
  q ← np_truediv (PrimFloat.sqrt rmax - PrimFloat.sqrt rmin)%float (nsam - 1);
  fi ← float_of_int i;
  Ok (np_square (q * fi + PrimFloat.sqrt rmin)%float).

Definition recombination_rate_const_interpolation
    (nsam i : Z) (rmin rmax : float) : result float :=
  q ← py_truediv (rmax - rmin)%float (nsam - 1);
  fi ← float_of_int i;
  Ok (q * fi + rmin)%float.



Section program.
Context `{PG : Popgen}.

Definition build_configuration (args : Args) : result configuration :=
  let configuration : configuration := ∅ in
  let configuration := <["sequence_length" := VFloat 5e5]> configuration in
  let configuration := <["rate" := VFloat (mutation_rate args)]> configuration in
  let configuration := <["ploidy" := VInt (ploidy args)]> configuration in
  match demography args with
  | Some file =>
      d ← load_demography_from_file file None None;
      Ok (<["demography" := VDemography d]> configuration)
  | None =>
      Ok (<["population_size" := VFloat (ne args)]> configuration)
  end.

(** [g_args] is the module-level name [args]: bound by the script's
    [__main__] block, unbound when the module is imported. *)
Definition save_training_data (g_args : option Args)
    (path : option string) (data : array * array) : io unit :=
  io_assert (bool_decide (is_Some path)) "no file provided.";;
  let path := default "" path in
  there ← path_exists path;
  io_assert (negb there) "file has already existed.";;
  let '(x, y) := data in
  '(x_train, x_test, y_train, y_test) ← lift (train_test_split x y 0.2);
  write_file path (PickleFile [x_train; x_test; y_train; y_test]);;
  (* logging.info(f'... {args.out}') *)
  match g_args with
  | Some _ => mret tt
  | None => lift (Raise (NameError "args"))
  end.

(** What the three lists and the draw counter are while [simulate] runs. *)
Definition samples : Type := list Window * list Genealogy * list float * nat.

(** The body of the innermost loop: one window drawn from [hap]. *)
Definition draw_window (configs : configuration) (r : float) (seed : nat)
    (hap : Haplotype) (gen : Genealogy) (st : samples) : result samples :=
  let '(haplotypes, genealogies, rhos, k) := st in
  start ← np_random_choice seed k (nsites hap - window_size);
  let haplotypes := haplotypes ++ [slice_columns (matrix hap) start (start + window_size)] in
  let genealogies := genealogies ++ [py_slice gen start (start + window_size)] in
  hi ← py_index (positions hap) (start + window_size);
  lo ← py_index (positions hap) start;
  let length := (hi - lo)%float in
  size ← dict_get configs "population_size";
  twice ← int_times_value 2 size;
  let scaled_rho := (twice * r * length)%float in
  Ok (haplotypes, genealogies, rhos ++ [scaled_rho], S k).

(** The body of the outer loop: one simulated replicate. *)
Definition sample_replicate (configs : configuration) (args : Args) (r : float)
    (seed : nat) (data : Replicate) (st : samples) : result samples :=
  data ← filter_replicate data;
  reps ← cut_replicate data global_window_size;
  let haps := haplotype <$> reps in
  inferred_genealogies ← rentplus haps (num_thread args);
  for_each (fun '(hap, gen) st =>
              for_each (fun _ st => draw_window configs r seed hap gen st)
                       (range (ndraw args)) st)
           (zip haps inferred_genealogies) st.

Definition simulate (configs : configuration) (args : Args) (r : float)
    (seed : nat) : result (list Window * list Genealogy * list float) :=
  let configs := <["recombination_rate" := VFloat r]> configs in
  simulator ← Simulator configs;
  replicates ← Simulator_call simulator (npop args) 1 seed;
  '(haplotypes, genealogies, rhos, _) ←
    for_each (sample_replicate configs args r seed) replicates ([], [], [], 0%nat);
  Ok (haplotypes, genealogies, rhos).

(** Line 108: the argument tuples, one per grid index. *)
Definition paras (configs : configuration) (args : Args)
  : result (list (configuration * Args * float)) :=
  mapM (fun i =>
          r ← recombination_rate_const_interpolation (nsam args) i (rmin args) (rmax args);
          Ok (configs, args, r))
       (range (nsam args)).

(** [pool.starmap(simulate, paras)]: the results come back in the order of
    the argument tuples; the [i]-th call is served by seed [i]. *)
Definition starmap (paras : list (configuration * Args * float))
  : result (list (list Window * list Genealogy * list float)) :=
  mapM (fun '(i, (configs, args, r)) => simulate configs args r i)
       (imap pair paras).

(** Lines 111-114: the three accumulators after the loop over [results]. *)
Definition aggregate (results : list (list Window * list Genealogy * list float))
  : list Window * list Genealogy * list float :=
  fold_left (fun '(haplotypes, genealogies, rhos) result =>
               (haplotypes ++ result.1.1, genealogies ++ result.1.2, rhos ++ result.2))
            results ([], [], []).

(** Lines 101-114 of [run]. *)
Definition run_simulations (args : Args)
  : result (list Window * list Genealogy * list float) :=
  pool ← Pool (num_thread args `div` 2);
  configs ← build_configuration args;
  paras ← paras configs args;
  results ← starmap paras;
  Ok (aggregate results).

(** Lines 117-124 of [run]: the feature array and the target array. *)
Definition build_dataset (args : Args)
    (sims : list Window * list Genealogy * list float) : result (array * array) :=
  let '(haplotypes, genealogies, rhos) := sims in
  rfdistance ← rfdist genealogies (num_thread args);
  tridistance ← triplet_dist genealogies (num_thread args);
  lds ← linkage_disequilibrium haplotypes;
  let lds := column lds in
  let rfs := column rfdistance in
  let tris := column tridistance in
  data ← np_concatenate_last [lds; rfs; tris];
  let rhos := column rhos in
  Ok (data, rhos).

Definition run (g_args : option Args) (args : Args) : io unit :=
  io_assert (bool_decide (is_Some (out args))) "no output name.";;
  io_assert (rmin args <=? rmax args)%float "r_max should be greater than r_min.";;
  sims ← lift (run_simulations args);
  dataset ← lift (build_dataset args sims);
  save_training_data g_args (out args) dataset.

End program.
End data_provider_parallel.

(** ** deeprho/test_provider.py *)

Module test_provider.

Record Args : Type := {
  npop : Z;
  ne : float;
  ploidy : Z;
  mutation_rate : float;
  demography : option string;
  recombination_rate : option float;
  sequence_length : float;
  rate_map : option string;
  num_thread : Z;
  out : option string;
  verbose : bool;
}.

Section program.
Context `{PG : Popgen}.

Definition build_configuration (args : Args) : result configuration :=
  let configuration : configuration := ∅ in
  let configuration := <["rate" := VFloat (mutation_rate args)]> configuration in
  let configuration := <["ploidy" := VInt (ploidy args)]> configuration in
  configuration ←
    match rate_map args with
    | Some file =>
        map ← load_recombination_map_from_file file;
        let configuration := <["recombination_rate" := VRateMap map]> configuration in
        Ok (<["sequence_length" := VFloat (map_sequence_length map)]> configuration)
    | None =>
        let configuration :=
          <["recombination_rate" := from_option VFloat VNone (recombination_rate args)]>
            configuration in
        Ok (<["sequence_length" := VFloat (sequence_length args)]> configuration)
    end;
  match demography args with
  | Some file =>
      d ← load_demography_from_file file (Some "generation") (Some 29%Z);
      Ok (<["demography" := VDemography d]> configuration)
  | None =>
      Ok (<["population_size" := VFloat (ne args)]> configuration)
  end.

Definition simulate_single_genome (configs : configuration) (args : Args)
    (seed : nat) : result Replicate :=
  simulator ← Simulator configs;
  replicates ← Simulator_call simulator (npop args) 1 seed;
  match replicates with
  | genome :: _ => Ok genome
  | [] => Raise StopIteration
  end.

(** [assert os.path.exists(file)] when [file] is not [None]. *)
Definition assert_supplied_file_exists (file : option string) : io unit :=
  match file with
  | Some p => there ← path_exists p; io_assert there ""
  | None => mret tt
  end.

Definition run (args : Args) : io unit :=
  io_assert (bool_decide (is_Some (out args))) "no output name.";;
  assert_supplied_file_exists (demography args);;
  assert_supplied_file_exists (rate_map args);;
  configs ← lift (build_configuration args);
  genome ← lift (simulate_single_genome configs args 0);
  let out := default "" (out args) in
  write_file out (TextFile "");;
  vcf ← lift (write_vcf genome);
  write_file out (TextFile vcf).

End program.
End test_provider.

Module dpp := data_provider_parallel.
Module tp := test_provider.

(** ** Notions the properties are stated with *)

(** The [i]-th rate of the linear grid when nothing raises: the formula of
    [recombination_rate_const_interpolation] on the rounded integers. *)
Definition grid_rate (nsam : Z) (rmin rmax : float) (i : Z) : float :=
  ((rmax - rmin) / SF2Prim (binary_normalize prec emax (nsam - 1) 0 false)
   * SF2Prim (binary_normalize prec emax i 0 false) + rmin)%float.


(** The three lists of a sampling state have one entry per drawn window. *)
Definition lockstep `{PopgenTypes} (st : dpp.samples) : Prop :=
  length st.1.1.1 = length st.1.1.2 /\ length st.1.1.2 = length st.1.2.

(** A haplotype [simulate] can draw a window from: more than [window_size]
    sites, and a position for every site. *)
Definition sampleable (hap : Haplotype) : Prop :=
  (dpp.window_size < nsites hap <= Z.of_nat (length (positions hap)))%Z.

(** No window and no genealogy of a sampling state spans more than
    [window_size] sites. *)
Definition narrow `{PopgenTypes} (st : dpp.samples) : Prop :=
  Forall (Forall (fun row => length row <= Z.to_nat dpp.window_size)%nat) st.1.1.1
  /\ Forall (fun trees => length trees <= Z.to_nat dpp.window_size)%nat st.1.1.2.

(** A file was named on the command line and is not there. *)
Definition supplied_but_missing (fs : filesystem) (file : option string) : bool :=
  match file with
  | Some p => negb (bool_decide (is_Some (fs !! p)))
  | None => false
  end.

(** ** What the program expects of the libraries *)

(** scikit-learn's [train_test_split] with [test_size=0.2] on [n] samples:
    [ceil(0.2 * n)] test rows, the other rows for training, features and
    targets split alike. *)
Definition split_sizes `{Popgen} : Prop :=
  forall (x y x_train x_test y_train y_test : array),
    train_test_split x y 0.2 = Ok (x_train, x_test, y_train, y_test) ->
    (length x_train + length x_test = length x)%nat
    /\ Z.of_nat (length x_test) = ((Z.of_nat (length x) + 4) `div` 5)%Z
    /\ length y_train = length x_train
    /\ length y_test = length x_test.

(** The three summary statistics give one number per sampled window. *)
Definition one_value_per_window `{Popgen} : Prop :=
  (forall gens n vs, rfdist gens n = Ok vs -> length vs = length gens)
  /\ (forall gens n vs, triplet_dist gens n = Ok vs -> length vs = length gens)
  /\ (forall haps vs, linkage_disequilibrium haps = Ok vs -> length vs = length haps).

(** ** Test doubles of the libraries *)

(** A small deterministic library: every replicate is one haplotype of 52
    sites, a genealogy is the list of its site numbers, and the split keeps
    the samples in order. *)
Module mock.

#[global] Instance types : PopgenTypes := {|
  Demography := string;
  RateMap := float;
  Tree := nat;
  Replicate := Haplotype;
  SimulatorT := unit;
|}.

Definition float_of_nat (n : nat) : float :=
  SF2Prim (binary_normalize prec emax (Z.of_nat n) 0 false).

Definition genome (npop : Z) : Haplotype := {|
  nsites := 52;
  matrix := replicate (Z.to_nat npop) (replicate 52 1%Z);
  positions := (fun n => float_of_nat (100 * n)) <$> seq 0 52;
|}.

Definition split (x y : array) (test_size : float)
  : result (array * array * array * array) :=
  let n := length x in
  let n_test := Z.to_nat ((Z.of_nat n + 4) `div` 5) in
  if negb (length y =? n)%nat then Raise ValueError
  else if (n - n_test =? 0)%nat then Raise ValueError
  else Ok (drop n_test x, take n_test x, drop n_test y, take n_test y).

#[global] Instance popgen : Popgen := {|
  load_demography_from_file file _ _ := Ok file;
  load_recombination_map_from_file _ := Ok 5e5%float;
  map_sequence_length m := m;
  Simulator _ := Ok tt;
  Simulator_call _ npop _ _ := Ok [genome npop];
  filter_replicate data := Ok data;
  cut_replicate data _ := Ok [data];
  haplotype rep := rep;
  rentplus haps _ := Ok ((fun hap => seq 0 (Z.to_nat (nsites hap))) <$> haps);
  rfdist gens _ := Ok ((fun _ => 0.5%float) <$> gens);
  triplet_dist gens _ := Ok ((fun _ => 0.25%float) <$> gens);
  linkage_disequilibrium haps := Ok ((fun _ => 0.125%float) <$> haps);
  write_vcf _ := Ok "##fileformat=VCFv4.2";
  train_test_split := split;
  random_draw seed k := Z.of_nat (seed + k);
|}.


(** The command line [--nsam n --ndraw d --npop 4 --num-thread 4
    --out o.pkl], with [--demography file] when one is given and the
    defaults of [gt_args] for the rest. *)
Definition command_line (n d : Z) (file : option string)
  : data_provider_parallel.Args := {|
  data_provider_parallel.nsam := n;
  data_provider_parallel.ndraw := d;
  data_provider_parallel.npop := 4;
  data_provider_parallel.ne := 1e5;
  data_provider_parallel.ploidy := 1;
  data_provider_parallel.mutation_rate := 2.5e-8;
  data_provider_parallel.demography := file;
  data_provider_parallel.rmin := 1e-9;
  data_provider_parallel.rmax := 5e-7;
  data_provider_parallel.num_thread := 4;
  data_provider_parallel.out := Some "o.pkl";
  data_provider_parallel.verbose := false;
|}.

Definition args : data_provider_parallel.Args := command_line 3 2 None.

(** The library [popgen] above, with [sites] sites on every simulated
    haplotype. *)
Definition genome_of (sites : nat) (npop : Z) : Haplotype := {|
  nsites := Z.of_nat sites;
  matrix := replicate (Z.to_nat npop) (replicate sites 1%Z);
  positions := (fun n => float_of_nat (100 * n)) <$> seq 0 sites;
|}.

Definition popgen_of (sites : nat) : Popgen := {|
  load_demography_from_file file _ _ := Ok file;
  load_recombination_map_from_file _ := Ok 5e5%float;
  map_sequence_length m := m;
  Simulator _ := Ok tt;
  Simulator_call _ npop _ _ := Ok [genome_of sites npop];
  filter_replicate data := Ok data;
  cut_replicate data _ := Ok [data];
  haplotype rep := rep;
  rentplus haps _ := Ok ((fun hap => seq 0 (Z.to_nat (nsites hap))) <$> haps);
  rfdist gens _ := Ok ((fun _ => 0.5%float) <$> gens);
  triplet_dist gens _ := Ok ((fun _ => 0.25%float) <$> gens);
  linkage_disequilibrium haps := Ok ((fun _ => 0.125%float) <$> haps);
  write_vcf _ := Ok "##fileformat=VCFv4.2";
  train_test_split := split;
  random_draw seed k := Z.of_nat (seed + k);
|}.

(** The same command line with [--num-thread t]. *)
Definition with_threads (t : Z) (a : data_provider_parallel.Args)
  : data_provider_parallel.Args := {|
  data_provider_parallel.nsam := data_provider_parallel.nsam a;
  data_provider_parallel.ndraw := data_provider_parallel.ndraw a;
  data_provider_parallel.npop := data_provider_parallel.npop a;
  data_provider_parallel.ne := data_provider_parallel.ne a;
  data_provider_parallel.ploidy := data_provider_parallel.ploidy a;
  data_provider_parallel.mutation_rate := data_provider_parallel.mutation_rate a;
  data_provider_parallel.demography := data_provider_parallel.demography a;
  data_provider_parallel.rmin := data_provider_parallel.rmin a;
  data_provider_parallel.rmax := data_provider_parallel.rmax a;
  data_provider_parallel.num_thread := t;
  data_provider_parallel.out := data_provider_parallel.out a;
  data_provider_parallel.verbose := data_provider_parallel.verbose a;
|}.


End mock.

(** * Properties *)

(** ** Integers as floats *)

Lemma float_of_int_small (z : Z) :
  (Z.abs z < float_max_int)%Z ->
  float_of_int z = Ok (SF2Prim (binary_normalize prec emax z 0 false)).
Proof.
  intros Hz. unfold float_of_int.
  destruct (Z.ltb_spec (Z.abs z) float_max_int) as [_|Hge]; [reflexivity | lia].
Qed.

Lemma float_max_int_pos : (2 ^ 1023 < float_max_int)%Z.
Proof. reflexivity. Qed.

(** ** The rate grid *)

Section interpolation_R.
Open Scope R_scope.
Variables (nsam : Z) (rmin rmax : R).
Hypothesis Hnsam : (2 <= nsam)%Z.
Hypothesis Hrate : 0 <= rmin <= rmax.













End interpolation_R.




(** ** A grid of one sample *)

Lemma float_of_int_0 : float_of_int 0 = Ok 0%float.
Proof. vm_compute. reflexivity. Qed.

Lemma py_truediv_0 (x : float) : py_truediv x 0 = Raise ZeroDivisionError.
Proof. unfold py_truediv. rewrite float_of_int_0. reflexivity. Qed.

Lemma np_truediv_0 (x : float) : np_truediv x 0 = Ok (x / 0)%float.
Proof. unfold np_truediv. rewrite float_of_int_0. reflexivity. Qed.

Lemma const_interpolation_single (i : Z) (rmin rmax : float) :
  dpp.recombination_rate_const_interpolation 1 i rmin rmax = Raise ZeroDivisionError.
Proof.
  unfold dpp.recombination_rate_const_interpolation.
  change (1 - 1)%Z with 0%Z. rewrite py_truediv_0. reflexivity.
Qed.

Lemma quadratic_interpolation_single (i : Z) (rmin rmax : float) :
  dpp.recombination_rate_quadratic_interpolation 1 i rmin rmax
  = (fi ← float_of_int i;
     Ok (np_square ((PrimFloat.sqrt rmax - PrimFloat.sqrt rmin) / 0 * fi
                    + PrimFloat.sqrt rmin)%float)).
Proof.
  unfold dpp.recombination_rate_quadratic_interpolation.
  change (1 - 1)%Z with 0%Z. rewrite np_truediv_0. reflexivity.
Qed.

Lemma range_nonpos (n : Z) : (n <= 0)%Z -> range n = [].
Proof. intros Hn. unfold range. by replace (Z.to_nat n) with 0%nat by lia. Qed.

Lemma range_1 : range 1 = [0%Z].
Proof. reflexivity. Qed.

Lemma paras_single `{Popgen} (configs : configuration) (args : dpp.Args) :
  dpp.nsam args = 1%Z -> dpp.paras configs args = Raise ZeroDivisionError.
Proof.
  intros Hn. unfold dpp.paras. rewrite Hn, range_1. cbn.
  rewrite const_interpolation_single. reflexivity.
Qed.

Lemma Pool_ok (n : Z) : (2 <= n)%Z -> Pool (n `div` 2) = Ok (n `div` 2)%Z.
Proof.
  intros Hn. unfold Pool.
  destruct (Z.ltb_spec (n `div` 2) 1) as [Hlt|_]; [|reflexivity].
  assert (1 <= n `div` 2)%Z by (apply Z.div_le_lower_bound; lia). lia.
Qed.

(** C10, as the code computes it: with [nsam = 1] the quadratic
    interpolation returns a NaN at index 0 and an infinity at index 1; it
    raises nothing. *)
Lemma quadratic_interpolation_single_returns :
  dpp.recombination_rate_quadratic_interpolation 1 0 1e-9 5e-7 = Ok nan
  /\ dpp.recombination_rate_quadratic_interpolation 1 1 1e-9 5e-7 = Ok infinity.
Proof. split; vm_compute; reflexivity. Qed.

(** C10, amended: for [nsam = 1] every call of
    [recombination_rate_const_interpolation] raises [ZeroDivisionError];
    [recombination_rate_quadratic_interpolation] divides a numpy float64,
    so it raises no [ZeroDivisionError] and returns the IEEE result of
    dividing by zero; [run] builds its grid with the linear interpolation
    and so raises [ZeroDivisionError] for [nsam = 1] once its two
    assertions, the pool and the configuration are through, leaving the
    file system as it was; for [nsam <= 0] the grid is empty. *)
Theorem single_sample_grid `{Popgen} (g_args : option dpp.Args) (args : dpp.Args)
    (configs : configuration) (fs : filesystem) (i : Z) (rmin rmax : float) :
  dpp.recombination_rate_const_interpolation 1 i rmin rmax = Raise ZeroDivisionError
  /\ dpp.recombination_rate_quadratic_interpolation 1 i rmin rmax
     <> Raise ZeroDivisionError
  /\ ((Z.abs i < float_max_int)%Z ->
      dpp.recombination_rate_quadratic_interpolation 1 i rmin rmax
      = Ok (np_square ((PrimFloat.sqrt rmax - PrimFloat.sqrt rmin) / 0
                       * SF2Prim (binary_normalize prec emax i 0 false)
                       + PrimFloat.sqrt rmin)%float))
  /\ (dpp.nsam args = 1%Z -> dpp.paras configs args = Raise ZeroDivisionError)
  /\ (dpp.nsam args = 1%Z -> is_Some (dpp.out args) ->
      (dpp.rmin args <=? dpp.rmax args)%float = true ->
      (2 <= dpp.num_thread args)%Z ->
      dpp.build_configuration args = Ok configs ->
      dpp.run g_args args fs = (fs, Raise ZeroDivisionError))
  /\ ((dpp.nsam args <= 0)%Z -> dpp.paras configs args = Ok []).
Proof.
  split; [apply const_interpolation_single|].
  split.
  { rewrite quadratic_interpolation_single. unfold float_of_int.
    destruct (Z.abs i <? float_max_int)%Z; cbn; discriminate. }
  split.
  { intros Hi. rewrite quadratic_interpolation_single, float_of_int_small by done.
    reflexivity. }
  split; [apply paras_single|].
  split.
  - intros Hn Hout Hr Ht Hc.
    unfold dpp.run, dpp.run_simulations.
    rewrite Pool_ok, Hr by done.
    rewrite (bool_decide_eq_true_2 _ Hout).
    cbn. rewrite Hc. cbn. rewrite paras_single by done. reflexivity.
  - intros Hn. unfold dpp.paras. by rewrite range_nonpos.
Qed.

Lemma single_sample_grid_run :
  dpp.run None (mock.command_line 1 2 None) ∅ = (∅, Raise ZeroDivisionError).
Proof.
  eapply (single_sample_grid None (mock.command_line 1 2 None) _ ∅ 0 0 0).
  all: try reflexivity.
  - by eexists.
  - vm_compute. discriminate.
Defined.

(** ** Saving the training data *)

(** Runs the I/O monad's plumbing on the goal. *)
Ltac io_steps :=
  unfold mbind, mret, io_bind, io_ret, io_assert, lift, path_exists, write_file;
  cbn.

Section save_training_data.
Context `{PG : Popgen}.
Implicit Types (fs : filesystem) (g_args : option dpp.Args) (p : string).

Lemma save_without_path g_args data fs :
  dpp.save_training_data g_args None data fs
  = (fs, Raise (AssertionError "no file provided.")).
Proof. reflexivity. Qed.

Lemma save_on_existing g_args p data fs (old : file) :
  fs !! p = Some old ->
  dpp.save_training_data g_args (Some p) data fs
  = (fs, Raise (AssertionError "file has already existed.")).
Proof.
  intros Hold. unfold dpp.save_training_data. io_steps.
  rewrite bool_decide_eq_true_2 by (by rewrite Hold).
  reflexivity.
Qed.

(** A call on a fresh path: the split, then the dump, then the log line
    that reads [args]. *)
Lemma save_on_fresh g_args p (x y : array) fs :
  fs !! p = None ->
  dpp.save_training_data g_args (Some p) (x, y) fs
  = match train_test_split x y 0.2 with
    | Raise e => (fs, Raise e)
    | Ok (x_train, x_test, y_train, y_test) =>
        (<[p := PickleFile [x_train; x_test; y_train; y_test]]> fs,
         match g_args with
         | Some _ => Ok tt
         | None => Raise (NameError "args")
         end)
    end.
Proof.
  intros Hnew. unfold dpp.save_training_data. io_steps.
  rewrite bool_decide_eq_false_2 by (rewrite Hnew; by intros [? ?]).
  cbn.
  destruct (train_test_split x y 0.2) as [[[[x_train x_test] y_train] y_test]|e];
    [|reflexivity].
  by destruct g_args.
Qed.

(** Whatever happens, only the given path can change. *)
Lemma save_frame g_args path data fs q :
  path <> Some q ->
  (dpp.save_training_data g_args path data fs).1 !! q = fs !! q.
Proof.
  intros Hq. destruct path as [p|]; [|reflexivity].
  destruct (fs !! p) as [old|] eqn:Hp.
  - by rewrite (save_on_existing _ _ _ _ old).
  - destruct data as [x y]. rewrite save_on_fresh by done.
    destruct (train_test_split x y 0.2) as [[[[? ?] ?] ?]|]; [|done].
    cbn. apply lookup_insert_ne. congruence.
Qed.

End save_training_data.

(** The test double splits as scikit-learn documents. *)
Lemma mock_split_sizes : split_sizes.
Proof.
  intros x y x_train x_test y_train y_test. cbn. unfold mock.split.
  destruct (Nat.eqb_spec (length y) (length x)) as [Hxy|]; [|discriminate]. cbn.
  set (n_test := Z.to_nat ((Z.of_nat (length x) + 4) `div` 5)).
  destruct (Nat.eqb_spec (length x - n_test) 0); [discriminate|].
  intros [= <- <- <- <-].
  rewrite !length_drop, !length_take. subst n_test.
  pose proof (Z.div_pos (Z.of_nat (length x) + 4) 5).
  repeat split; lia.
Qed.

Lemma mock_one_value_per_window : one_value_per_window.
Proof.
  repeat split; cbn; intros; simplify_eq; by rewrite length_fmap.
Qed.

(** C3: on a path that already exists [save_training_data] raises an
    [AssertionError] and leaves the whole file system, the existing file
    included, as it was; it likewise raises when the path is [None]. *)
Theorem save_training_data_refuses_to_overwrite `{Popgen}
    (g_args : option dpp.Args) (path : string) (data : array * array)
    (fs : filesystem) (old : file) :
  fs !! path = Some old ->
  dpp.save_training_data g_args (Some path) data fs
    = (fs, Raise (AssertionError "file has already existed."))
  /\ (dpp.save_training_data g_args (Some path) data fs).1 !! path = Some old
  /\ dpp.save_training_data g_args None data fs
    = (fs, Raise (AssertionError "no file provided.")).
Proof.
  intros Hold. rewrite (save_on_existing _ _ _ _ old) by done.
  by rewrite save_without_path.
Qed.

Lemma save_training_data_refuses_to_overwrite_pickle :
  let fs : filesystem := {[ "o.pkl" := TextFile "precious" ]} in
  dpp.save_training_data (Some mock.args) (Some "o.pkl") ([[1%float]], [[2%float]]) fs
    = (fs, Raise (AssertionError "file has already existed."))
  /\ (dpp.save_training_data (Some mock.args) (Some "o.pkl")
        ([[1%float]], [[2%float]]) fs).1 !! "o.pkl" = Some (TextFile "precious")
  /\ dpp.save_training_data (Some mock.args) None ([[1%float]], [[2%float]]) fs
    = (fs, Raise (AssertionError "no file provided.")).
Proof.
  intros fs.
  apply (save_training_data_refuses_to_overwrite (Some mock.args) "o.pkl"
           ([[1%float]], [[2%float]]) fs (TextFile "precious")).
  reflexivity.
Defined.

(** C6: a call of [save_training_data] that returns has written, at the
    output path, the pickle of the tuple of exactly the four arrays the
    split gave, in the order [(x_train, x_test, y_train, y_test)]. *)
Theorem save_training_data_pickles_four_arrays `{Popgen}
    (g_args : option dpp.Args) (path : option string) (x y : array)
    (fs fs' : filesystem) :
  dpp.save_training_data g_args path (x, y) fs = (fs', Ok tt) ->
  exists (p : string) (x_train x_test y_train y_test : array),
    path = Some p
    /\ train_test_split x y 0.2 = Ok (x_train, x_test, y_train, y_test)
    /\ fs' !! p = Some (PickleFile [x_train; x_test; y_train; y_test])
    /\ fs' = <[p := PickleFile [x_train; x_test; y_train; y_test]]> fs.
Proof.
  intros Hsave. destruct path as [p|]; [|by rewrite save_without_path in Hsave].
  destruct (fs !! p) as [old|] eqn:Hp.
  { by rewrite (save_on_existing _ _ _ _ old) in Hsave. }
  rewrite save_on_fresh in Hsave by done.
  destruct (train_test_split x y 0.2) as [[[[x_train x_test] y_train] y_test]|e];
    [|discriminate].
  injection Hsave as <- _.
  exists p, x_train, x_test, y_train, y_test.
  by rewrite lookup_insert_eq.
Qed.

Lemma save_training_data_pickles_four_arrays_run :
  let x : array := [[1%float]; [2%float]; [3%float]; [4%float]; [5%float]] in
  let y : array := [[10%float]; [20%float]; [30%float]; [40%float]; [50%float]] in
  exists (p : string) (x_train x_test y_train y_test : array),
    Some "o.pkl" = Some p
    /\ train_test_split x y 0.2 = Ok (x_train, x_test, y_train, y_test)
    /\ (dpp.save_training_data (Some mock.args) (Some "o.pkl") (x, y) ∅).1 !! p
       = Some (PickleFile [x_train; x_test; y_train; y_test])
    /\ (dpp.save_training_data (Some mock.args) (Some "o.pkl") (x, y) ∅).1
       = <[p := PickleFile [x_train; x_test; y_train; y_test]]> ∅.
Proof.
  intros x y.
  apply (save_training_data_pickles_four_arrays (Some mock.args) (Some "o.pkl") x y ∅).
  reflexivity.
Defined.



(** C4: for [x] and [y] of [n] rows each, the partitions that
    [save_training_data] pickles have [rows(x_train) + rows(x_test) = n]
    rows (and so have the targets), and the test partition holds
    [ceil(n / 5)] of them, within one row of 20%, as the library's split
    documents for [test_size = 0.2]. *)
Theorem saved_partitions_sum_and_ratio `{Popgen}
    (g_args : option dpp.Args) (p : string) (x y : array) (fs : filesystem)
    (x_train x_test y_train y_test : array) :
  split_sizes ->
  length x = length y ->
  fs !! p = None ->
  (dpp.save_training_data g_args (Some p) (x, y) fs).1 !! p
    = Some (PickleFile [x_train; x_test; y_train; y_test]) ->
  (length x_train + length x_test = length x)%nat
  /\ (length y_train + length y_test = length y)%nat
  /\ (5 * Z.of_nat (length x_test) - 5 < Z.of_nat (length x)
      <= 5 * Z.of_nat (length x_test))%Z.
Proof.
  intros Hsizes Hxy Hnew Hfile. rewrite save_on_fresh in Hfile by done.
  destruct (train_test_split x y 0.2) as [[[[a b] c] d]|e] eqn:Hsplit; cbn in Hfile.
  - rewrite lookup_insert_eq in Hfile. injection Hfile as <- <- <- <-.
    destruct (Hsizes _ _ _ _ _ _ Hsplit) as (Hsum & Htest & Hc & Hd).
    rewrite Hc, Hd, <- Hxy.
    pose proof (Z.div_mod (Z.of_nat (length x) + 4) 5).
    pose proof (Z.mod_pos_bound (Z.of_nat (length x) + 4) 5).
    repeat split; lia.
  - by rewrite Hnew in Hfile.
Qed.

Lemma saved_partitions_sum_and_ratio_of_seven :
  let x : array := (fun n => [mock.float_of_nat n]) <$> seq 0 7 in
  let y : array := (fun n => [mock.float_of_nat (10 * n)]) <$> seq 0 7 in
  (length (drop 2 x) + length (take 2 x) = length x)%nat
  /\ (length (drop 2 y) + length (take 2 y) = length y)%nat
  /\ (5 * Z.of_nat (length (take 2 x)) - 5 < Z.of_nat (length x)
      <= 5 * Z.of_nat (length (take 2 x)))%Z.
Proof.
  intros x y.
  apply (saved_partitions_sum_and_ratio (Some mock.args) "o.pkl" x y ∅
           (drop 2 x) (take 2 x) (drop 2 y) (take 2 y) mock_split_sizes).
  - reflexivity.
  - reflexivity.
  - vm_compute. reflexivity.
Defined.

(** ** Loops in the error monad *)

Lemma bind_Ok {A B : Type} (m : result A) (f : A -> result B) (b : B) :
  m ≫= f = Ok b -> exists a, m = Ok a /\ f a = Ok b.
Proof. destruct m as [a|e]; [by exists a | discriminate]. Qed.

Lemma bind_Raise {A B : Type} (m : result A) (f : A -> result B) (e : exn) :
  m = Raise e -> m ≫= f = Raise e.
Proof. by intros ->. Qed.

(** Splits a hypothesis [m ≫= f = Ok b] into its two steps. *)
Ltac bind_inv H :=
  let a := fresh "a" in
  let Hm := fresh "Hm" in
  apply bind_Ok in H as (a & Hm & H).

Lemma for_each_invariant {A S : Type} (P : S -> Prop)
    (body : A -> S -> result S) (xs : list A) (s s' : S) :
  (forall x t t', P t -> body x t = Ok t' -> P t') ->
  P s -> for_each body xs s = Ok s' -> P s'.
Proof.
  intros Hbody. revert s. induction xs as [|x xs IH]; intros s Hs Hloop; cbn in Hloop.
  - by injection Hloop as <-.
  - bind_inv Hloop. eauto.
Qed.

(** A body that never returns leaves the state alone: the loop returns
    only over an empty sequence. *)
Lemma for_each_stuck {A S : Type} (body : A -> S -> result S)
    (xs : list A) (s s' : S) :
  (forall x t t', body x t <> Ok t') ->
  for_each body xs s = Ok s' -> xs = [] /\ s' = s.
Proof.
  intros Hbody Hloop. destruct xs as [|x xs]; cbn in Hloop.
  - by injection Hloop as <-.
  - bind_inv Hloop. by apply Hbody in Hm.
Qed.

Lemma for_each_first_raises {A S : Type} (body : A -> S -> result S)
    (x : A) (xs : list A) (s : S) (e : exn) :
  body x s = Raise e -> for_each body (x :: xs) s = Raise e.
Proof. intros Hx. cbn. by rewrite Hx. Qed.

Lemma range_pos (n : Z) : (1 <= n)%Z -> exists rest, range n = 0%Z :: rest.
Proof.
  intros Hn. unfold range.
  destruct (Z.to_nat n) as [|k] eqn:Hk; [lia|]. cbn. eauto.
Qed.

Lemma length_range (n : Z) : length (range n) = Z.to_nat n.
Proof. unfold range. by rewrite length_fmap, length_seq. Qed.


(** ** Sampling windows *)

Section simulate.
Context `{PG : Popgen}.
Implicit Types (configs : configuration) (args : dpp.Args) (st : dpp.samples).

(** One turn of the innermost loop adds one window, one genealogy and one
    rho. *)
Lemma draw_window_appends configs r seed hap gen st st' :
  dpp.draw_window configs r seed hap gen st = Ok st' ->
  exists window trees rho,
    st' = (st.1.1.1 ++ [window], st.1.1.2 ++ [trees], st.1.2 ++ [rho], S st.2).
Proof.
  destruct st as [[[haplotypes genealogies] rhos] k]. unfold dpp.draw_window.
  intros Hdraw. do 5 bind_inv Hdraw. injection Hdraw as <-. cbn. eauto.
Qed.

Lemma draw_window_lockstep configs r seed hap gen st st' :
  lockstep st -> dpp.draw_window configs r seed hap gen st = Ok st' -> lockstep st'.
Proof.
  intros [Hhg Hgr] (window & trees & rho & ->)%draw_window_appends.
  unfold lockstep. cbn. rewrite !length_app. cbn. lia.
Qed.

Lemma sample_replicate_lockstep configs args r seed data st st' :
  lockstep st -> dpp.sample_replicate configs args r seed data st = Ok st' ->
  lockstep st'.
Proof.
  intros Hst Hrep. unfold dpp.sample_replicate in Hrep. do 3 bind_inv Hrep.
  revert Hrep. apply for_each_invariant; [|done].
  intros [hap gen] t t' Ht. apply for_each_invariant; [|done].
  intros _ u u'. apply draw_window_lockstep.
Qed.

Lemma simulate_lockstep configs args r seed haplotypes genealogies rhos :
  dpp.simulate configs args r seed = Ok (haplotypes, genealogies, rhos) ->
  length haplotypes = length genealogies /\ length genealogies = length rhos.
Proof.
  unfold dpp.simulate. intros Hsim. do 3 bind_inv Hsim.
  destruct a1 as [[[hs gs] rs] k]. injection Hsim as <- <- <-.
  change (lockstep (hs, gs, rs, k)).
  revert Hm1. apply for_each_invariant.
  - intros data t t'. apply sample_replicate_lockstep.
  - by split.
Qed.

End simulate.

(** ** Gathering the results *)

Lemma mapM_Ok {A B : Type} (f : A -> result B) (l : list A) (k : list B) :
  mapM f l = Ok k <-> Forall2 (fun x y => f x = Ok y) l k.
Proof.
  split.
  - revert k. induction l as [|x l IH]; intros k Hk; cbn in Hk.
    + injection Hk as <-. constructor.
    + do 2 bind_inv Hk. injection Hk as <-. constructor; eauto.
  - induction 1 as [|x y l k Hxy _ IH]; cbn; [done|]. by rewrite Hxy, IH.
Qed.


Section aggregate.
Context `{PG : Popgen}.
Implicit Types results : list (list Window * list Genealogy * list float).

Lemma aggregate_from results (hs : list Window) (gs : list Genealogy) (rs : list float) :
  fold_left (fun '(haplotypes, genealogies, rhos) result =>
               (haplotypes ++ result.1.1, genealogies ++ result.1.2, rhos ++ result.2))
            results (hs, gs, rs)
  = (hs ++ concat ((fun res => res.1.1) <$> results),
     gs ++ concat ((fun res => res.1.2) <$> results),
     rs ++ concat ((fun res => res.2) <$> results)).
Proof.
  revert hs gs rs. induction results as [|[[h g] r] results IH]; intros hs gs rs; cbn.
  - by rewrite !app_nil_r.
  - by rewrite IH, <- !app_assoc.
Qed.

(** The loop of lines 111-114 concatenates the per-call lists in order. *)
Lemma aggregate_concat results :
  dpp.aggregate results
  = (concat ((fun res => res.1.1) <$> results),
     concat ((fun res => res.1.2) <$> results),
     concat ((fun res => res.2) <$> results)).
Proof. unfold dpp.aggregate. by rewrite aggregate_from. Qed.

Lemma aggregate_lockstep results :
  Forall (fun res => length res.1.1 = length res.1.2
                     /\ length res.1.2 = length res.2) results ->
  length (dpp.aggregate results).1.1 = length (dpp.aggregate results).1.2
  /\ length (dpp.aggregate results).1.2 = length (dpp.aggregate results).2.
Proof.
  rewrite aggregate_concat. cbn.
  induction 1 as [|[[h g] r] results [Hhg Hgr] _ [IHhg IHgr]]; cbn in *; [done|].
  rewrite !length_app. lia.
Qed.

Lemma starmap_lockstep paras results :
  dpp.starmap paras = Ok results ->
  Forall (fun res => length res.1.1 = length res.1.2
                     /\ length res.1.2 = length res.2) results.
Proof.
  unfold dpp.starmap. rewrite mapM_Ok. generalize (imap pair paras).
  intros calls. induction 1 as [|[i [[configs args] r]] [[h g] rh] calls results Hcall _ IH];
    constructor; [|done].
  cbn. by eapply simulate_lockstep.
Qed.

Lemma run_simulations_lockstep args haplotypes genealogies rhos :
  dpp.run_simulations args = Ok (haplotypes, genealogies, rhos) ->
  length haplotypes = length genealogies /\ length genealogies = length rhos.
Proof.
  unfold dpp.run_simulations. intros Hrun. do 4 bind_inv Hrun.
  apply starmap_lockstep, aggregate_lockstep in Hm2.
  injection Hrun as Hagg. by rewrite Hagg in Hm2.
Qed.

Lemma length_column (l : list float) : length (column l) = length l.
Proof. unfold column. apply length_fmap. Qed.

Lemma np_concatenate_three (a b c d : array) :
  np_concatenate_last [a; b; c] = Ok d ->
  length d = length a /\ length a = length b /\ length b = length c.
Proof.
  cbn. destruct (Nat.eqb_spec (length b) (length c)) as [Hbc|]; [|discriminate].
  cbn. rewrite length_zip_with, <- Hbc, Nat.min_id.
  destruct (Nat.eqb_spec (length a) (length b)) as [Hab|]; [|discriminate].
  intros [= <-]. rewrite !length_zip_with. lia.
Qed.

Lemma build_dataset_rows args haplotypes genealogies rhos (data target : array) :
  one_value_per_window ->
  dpp.build_dataset args (haplotypes, genealogies, rhos) = Ok (data, target) ->
  length data = length haplotypes /\ length target = length rhos.
Proof.
  intros (_ & _ & Hld) Hbuild. unfold dpp.build_dataset in Hbuild.
  do 4 bind_inv Hbuild. injection Hbuild as <- <-.
  apply np_concatenate_three in Hm2 as (-> & _ & _).
  rewrite !length_column. split; [by eapply Hld | done].
Qed.

End aggregate.

(** C7: the three lists a [simulate] call returns have equal lengths, and
    in [run], with statistics that give one value per window, the feature
    array built from them has as many rows as the target array of rhos
    that goes to [save_training_data] with it. *)
Theorem feature_and_target_rows_match `{Popgen} (args : dpp.Args) :
  (forall configs r seed haplotypes genealogies rhos,
      dpp.simulate configs args r seed = Ok (haplotypes, genealogies, rhos) ->
      length haplotypes = length genealogies /\ length genealogies = length rhos)
  /\ (one_value_per_window ->
      forall sims data target,
        dpp.run_simulations args = Ok sims ->
        dpp.build_dataset args sims = Ok (data, target) ->
        length data = length target /\ length target = length sims.2).
Proof.
  split; [intros *; apply simulate_lockstep|].
  intros Hstats [[haplotypes genealogies] rhos] data target Hsims Hbuild.
  apply run_simulations_lockstep in Hsims as [Hhg Hgr].
  apply build_dataset_rows in Hbuild as [-> ->]; [|done]. cbn. lia.
Qed.

Lemma feature_and_target_rows_match_run :
  exists sims data target,
    dpp.run_simulations mock.args = Ok sims
    /\ dpp.build_dataset mock.args sims = Ok (data, target)
    /\ length data = 6%nat
    /\ length data = length target /\ length target = length sims.2.
Proof.
  destruct (dpp.run_simulations mock.args) as [sims|] eqn:Hsims;
    [|vm_compute in Hsims; discriminate].
  destruct (dpp.build_dataset mock.args sims) as [[data target]|] eqn:Hbuild;
    [|revert Hbuild; vm_compute in Hsims; injection Hsims as <-; vm_compute; discriminate].
  exists sims, data, target. split; [done|]. split; [done|]. split.
  - revert Hbuild. vm_compute in Hsims. injection Hsims as <-.
    vm_compute. by intros [= <- _].
  - exact (proj2 (feature_and_target_rows_match mock.args)
             mock_one_value_per_window sims data target Hsims Hbuild).
Defined.

(** ** A configuration built from a demography file *)

Lemma py_index_in_range {A : Type} (l : list A) (i : Z) :
  (0 <= i < Z.of_nat (length l))%Z -> exists a, py_index l i = Ok a.
Proof.
  intros Hi. unfold py_index.
  destruct (Z.ltb_spec i 0) as [|_]; [lia|].
  destruct (Z.ltb_spec i 0) as [|_]; [lia|].
  destruct (lookup_lt_is_Some_2 l (Z.to_nat i)) as [a Ha]; [lia|].
  rewrite Ha. by exists a.
Qed.

Section demography.
Context `{PG : Popgen}.
Implicit Types (configs : configuration) (args : dpp.Args).

Lemma choice_in_range seed k n :
  (0 < n)%Z ->
  exists start, np_random_choice seed k n = Ok start /\ (0 <= start < n)%Z.
Proof.
  intros Hn. unfold np_random_choice.
  destruct (Z.leb_spec n 0) as [|_]; [lia|].
  eexists. split; [done|]. by apply Z.mod_pos_bound.
Qed.

Lemma build_configuration_with_demography args file configs :
  dpp.demography args = Some file ->
  dpp.build_configuration args = Ok configs ->
  configs !! "population_size" = None
  /\ exists d, load_demography_from_file file None None = Ok d
               /\ configs !! "demography" = Some (VDemography d).
Proof.
  unfold dpp.build_configuration. intros -> Hbuild. bind_inv Hbuild.
  injection Hbuild as <-. split; [done|]. exists a. split; [done|].
  by rewrite lookup_insert_eq.
Qed.

Lemma build_configuration_without_demography args :
  dpp.demography args = None ->
  exists configs, dpp.build_configuration args = Ok configs
                  /\ configs !! "population_size" = Some (VFloat (dpp.ne args)).
Proof.
  unfold dpp.build_configuration. intros ->. eexists. split; [done|].
  by rewrite lookup_insert_eq.
Qed.

(** Without a population size the innermost loop body cannot finish. *)
Lemma draw_window_needs_population_size configs r seed hap gen st st' :
  configs !! "population_size" = None ->
  dpp.draw_window configs r seed hap gen st <> Ok st'.
Proof.
  intros Hnone Hdraw. destruct st as [[[haplotypes genealogies] rhos] k].
  unfold dpp.draw_window in Hdraw. do 4 bind_inv Hdraw.
  unfold dict_get in Hm2. by rewrite Hnone in Hm2.
Qed.

Lemma draw_window_KeyError configs r seed hap gen st :
  configs !! "population_size" = None ->
  (dpp.window_size < nsites hap)%Z ->
  (nsites hap <= Z.of_nat (length (positions hap)))%Z ->
  dpp.draw_window configs r seed hap gen st = Raise (KeyError "population_size").
Proof.
  intros Hnone Hwide Hpos. destruct st as [[[haplotypes genealogies] rhos] k].
  unfold dpp.draw_window, dpp.window_size in *.
  destruct (choice_in_range seed k (nsites hap - 50))
    as (start & -> & Hstart); [lia|]. cbn.
  destruct (py_index_in_range (positions hap) (start + 50)) as [hi ->];
    [lia|]. cbn.
  destruct (py_index_in_range (positions hap) start) as [lo ->]; [lia|]. cbn.
  unfold dict_get. by rewrite Hnone.
Qed.

Lemma sample_replicate_unchanged configs args r seed data st st' :
  configs !! "population_size" = None ->
  dpp.sample_replicate configs args r seed data st = Ok st' -> st' = st.
Proof.
  intros Hnone Hrep. unfold dpp.sample_replicate in Hrep. do 3 bind_inv Hrep.
  revert Hrep. apply (for_each_invariant (fun t => t = st)); [|done].
  intros [hap gen] t t' -> Hdraws.
  apply for_each_stuck in Hdraws as [_ ->]; [done|].
  intros _ u u'. by apply draw_window_needs_population_size.
Qed.

Lemma simulate_without_population_size configs args r seed haplotypes genealogies rhos :
  configs !! "population_size" = None ->
  dpp.simulate configs args r seed = Ok (haplotypes, genealogies, rhos) ->
  haplotypes = [] /\ genealogies = [] /\ rhos = [].
Proof.
  intros Hnone Hsim. unfold dpp.simulate in Hsim. do 3 bind_inv Hsim.
  destruct a1 as [[[hs gs] rs] k]. injection Hsim as <- <- <-.
  enough ((hs, gs, rs, k) = ([], [], [], 0%nat)) as [= -> -> -> ->] by done.
  revert Hm1. apply (for_each_invariant (fun t => t = ([], [], [], 0%nat))); [|done].
  intros data t t' -> Hrep.
  eapply sample_replicate_unchanged; [|done]. by rewrite lookup_insert_ne.
Qed.

Lemma simulate_KeyError configs args r seed sim data rest data' rep reps gen gens :
  configs !! "population_size" = None ->
  Simulator (<["recombination_rate" := VFloat r]> configs) = Ok sim ->
  Simulator_call sim (dpp.npop args) 1 seed = Ok (data :: rest) ->
  filter_replicate data = Ok data' ->
  cut_replicate data' dpp.global_window_size = Ok (rep :: reps) ->
  rentplus (haplotype <$> rep :: reps) (dpp.num_thread args) = Ok (gen :: gens) ->
  (1 <= dpp.ndraw args)%Z ->
  (dpp.window_size < nsites (haplotype rep))%Z ->
  (nsites (haplotype rep) <= Z.of_nat (length (positions (haplotype rep))))%Z ->
  dpp.simulate configs args r seed = Raise (KeyError "population_size").
Proof.
  intros Hnone Hsim Hcall Hfilter Hcut Hrent Hdraw Hwide Hpos.
  unfold dpp.simulate. rewrite Hsim. cbn. rewrite Hcall. cbn.
  apply bind_Raise, bind_Raise.
  unfold dpp.sample_replicate. rewrite Hfilter. cbn. rewrite Hcut. cbn.
  cbn in Hrent. rewrite Hrent. cbn.
  apply bind_Raise.
  destruct (range_pos (dpp.ndraw args)) as [js ->]; [done|].
  apply for_each_first_raises, draw_window_KeyError; [|done..].
  by rewrite lookup_insert_ne.
Qed.

End demography.

(** C8, as the code runs: with a demography file and [--ndraw 0] the
    configuration has no population size, and still every [simulate] call,
    and the whole fan-out of [run], returns (three empty lists). *)
Lemma simulate_returns_with_demography :
  exists configs,
    dpp.build_configuration (mock.command_line 3 0 (Some "demo.csv")) = Ok configs
    /\ configs !! "population_size" = None
    /\ dpp.simulate configs (mock.command_line 3 0 (Some "demo.csv")) 1e-9 0
       = Ok ([], [], [])
    /\ dpp.run_simulations (mock.command_line 3 0 (Some "demo.csv")) = Ok ([], [], []).
Proof. eexists. repeat split; vm_compute; reflexivity. Qed.

(** C8, amended: when a demography file is set, the configuration
    [build_configuration] returns holds a 'demography' entry and no
    'population_size'; a [simulate] call on it that draws a window (the
    simulator yields a replicate, it is cut and its genealogies inferred,
    [ndraw >= 1], the haplotype has more than [window_size] sites with
    their positions) raises [KeyError] for 'population_size'; and a call
    that returns has drawn nothing: its three lists are empty. *)
Theorem demography_drops_population_size `{Popgen}
    (args : dpp.Args) (file : string) (configs : configuration)
    (r : float) (seed : nat) :
  dpp.demography args = Some file ->
  dpp.build_configuration args = Ok configs ->
  configs !! "population_size" = None
  /\ (exists d, configs !! "demography" = Some (VDemography d))
  /\ (forall sim data rest data' rep reps gen gens,
        Simulator (<["recombination_rate" := VFloat r]> configs) = Ok sim ->
        Simulator_call sim (dpp.npop args) 1 seed = Ok (data :: rest) ->
        filter_replicate data = Ok data' ->
        cut_replicate data' dpp.global_window_size = Ok (rep :: reps) ->
        rentplus (haplotype <$> rep :: reps) (dpp.num_thread args) = Ok (gen :: gens) ->
        (1 <= dpp.ndraw args)%Z ->
        (dpp.window_size < nsites (haplotype rep))%Z ->
        (nsites (haplotype rep) <= Z.of_nat (length (positions (haplotype rep))))%Z ->
        dpp.simulate configs args r seed = Raise (KeyError "population_size"))
  /\ (forall haplotypes genealogies rhos,
        dpp.simulate configs args r seed = Ok (haplotypes, genealogies, rhos) ->
        haplotypes = [] /\ genealogies = [] /\ rhos = []).
Proof.
  intros Hfile Hbuild.
  destruct (build_configuration_with_demography args file configs Hfile Hbuild)
    as (Hnone & d & _ & Hd).
  split; [done|]. split; [by exists d|]. split.
  - intros *. by apply simulate_KeyError.
  - intros *. by apply simulate_without_population_size.
Qed.

Lemma demography_drops_population_size_run :
  let configs : configuration :=
    <["demography" := VDemography "demo.csv"]>
      (<["ploidy" := VInt 1]>
         (<["rate" := VFloat 2.5e-8]> (<["sequence_length" := VFloat 5e5]> ∅))) in
  dpp.build_configuration (mock.command_line 3 2 (Some "demo.csv")) = Ok configs
  /\ configs !! "population_size" = None
  /\ dpp.simulate configs (mock.command_line 3 2 (Some "demo.csv")) 1e-9 0
     = Raise (KeyError "population_size").
Proof.
  intros configs.
  assert (dpp.build_configuration (mock.command_line 3 2 (Some "demo.csv"))
          = Ok configs) as Hbuild by reflexivity.
  destruct (demography_drops_population_size
              (mock.command_line 3 2 (Some "demo.csv")) "demo.csv" configs 1e-9 0
              eq_refl Hbuild) as (Hnone & _ & Hraise & _).
  split; [exact Hbuild|]. split; [exact Hnone|].
  eapply (Hraise tt (mock.genome 4) [] (mock.genome 4) (mock.genome 4) []);
    try reflexivity; cbn; lia.
Defined.

(** ** The fan-out over the grid *)

Lemma const_interpolation_on_grid (nsam i : Z) (rmin rmax : float) :
  (nsam <> 1 /\ nsam < float_max_int)%Z -> (0 <= i < nsam)%Z ->
  dpp.recombination_rate_const_interpolation nsam i rmin rmax
  = Ok (grid_rate nsam rmin rmax i).
Proof.
  intros Hn Hi. unfold dpp.recombination_rate_const_interpolation, py_truediv.
  rewrite !float_of_int_small by lia. cbn.
  destruct (Z.eqb_spec (nsam - 1) 0) as [|_]; [lia|]. reflexivity.
Qed.


Section fan_out.
Context `{PG : Popgen}.
Implicit Types (configs : configuration) (args : dpp.Args).






End fan_out.



(** ** The assertions at the entry points *)

Section assertions.
Context `{PG : Popgen}.
Implicit Types (fs : filesystem) (g_args : option dpp.Args).







End assertions.



(** * Further properties of the program *)

(** ** What [run] does to the file system *)

Section run_outcomes.
Context `{PG : Popgen}.
Implicit Types (fs : filesystem) (g_args : option dpp.Args) (args : dpp.Args).

(** [run], step by step: the two assertions, the simulations, the
    statistics, and only then [save_training_data]. *)
Lemma run_steps g_args args fs :
  dpp.run g_args args fs
  = if negb (bool_decide (is_Some (dpp.out args)))
    then (fs, Raise (AssertionError "no output name."))
    else if negb (dpp.rmin args <=? dpp.rmax args)%float
    then (fs, Raise (AssertionError "r_max should be greater than r_min."))
    else match dpp.run_simulations args with
         | Raise e => (fs, Raise e)
         | Ok sims =>
             match dpp.build_dataset args sims with
             | Raise e => (fs, Raise e)
             | Ok dataset => dpp.save_training_data g_args (dpp.out args) dataset fs
             end
         end.
Proof.
  unfold dpp.run.
  destruct (bool_decide (is_Some (dpp.out args))); [|reflexivity].
  destruct (dpp.rmin args <=? dpp.rmax args)%float; [|reflexivity].
  io_steps.
  destruct (dpp.run_simulations args) as [sims|e]; [|reflexivity].
  destruct (dpp.build_dataset args sims) as [dataset|e]; reflexivity.
Qed.

(** [save_training_data] either leaves the file system alone or creates
    the pickle of the split at a path that did not exist. *)
Lemma save_creates_or_keeps g_args path (x y : array) fs :
  (dpp.save_training_data g_args path (x, y) fs).1 = fs
  \/ exists p x_train x_test y_train y_test,
       path = Some p /\ fs !! p = None
       /\ train_test_split x y 0.2 = Ok (x_train, x_test, y_train, y_test)
       /\ (dpp.save_training_data g_args path (x, y) fs).1
          = <[p := PickleFile [x_train; x_test; y_train; y_test]]> fs.
Proof.
  destruct path as [p|]; [|by left].
  destruct (fs !! p) as [old|] eqn:Hp.
  { left. by rewrite (save_on_existing _ _ _ _ old). }
  rewrite save_on_fresh by done.
  destruct (train_test_split x y 0.2) as [[[[a b] c] d]|e] eqn:Hsplit; [|by left].
  right. by exists p, a, b, c, d.
Qed.

End run_outcomes.

(** [run] never changes or removes a file that exists: whatever the
    arguments and whatever the libraries do, the file system after [run]
    is the one before, or the one before with a pickle of four arrays
    created at an output path that did not exist. *)
Theorem run_only_creates_its_output `{Popgen}
    (g_args : option dpp.Args) (args : dpp.Args) (fs : filesystem) :
  (dpp.run g_args args fs).1 = fs
  \/ exists p x_train x_test y_train y_test,
       dpp.out args = Some p /\ fs !! p = None
       /\ (dpp.run g_args args fs).1
          = <[p := PickleFile [x_train; x_test; y_train; y_test]]> fs.
Proof.
  rewrite run_steps.
  destruct (negb (bool_decide (is_Some (dpp.out args)))); [by left|].
  destruct (negb (dpp.rmin args <=? dpp.rmax args)%float); [by left|].
  destruct (dpp.run_simulations args) as [sims|e]; [|by left].
  destruct (dpp.build_dataset args sims) as [[data target]|e]; [|by left].
  destruct (save_creates_or_keeps g_args (dpp.out args) data target fs)
    as [Hkeep|(p & a & b & c & d & Hout & Hnew & _ & Hfs)]; [by left|].
  right. by exists p, a, b, c, d.
Qed.

(** When the output path already exists [run] cannot succeed, but it finds
    out last: it first runs the simulations and the statistics, whose
    errors come first, and only then raises the [AssertionError] of
    [save_training_data]; the file system is untouched. *)
Theorem run_checks_the_output_last `{Popgen}
    (g_args : option dpp.Args) (args : dpp.Args) (fs : filesystem)
    (p : string) (old : file) :
  dpp.out args = Some p ->
  fs !! p = Some old ->
  (dpp.rmin args <=? dpp.rmax args)%float = true ->
  dpp.run g_args args fs
  = (fs, match dpp.run_simulations args with
         | Raise e => Raise e
         | Ok sims =>
             match dpp.build_dataset args sims with
             | Raise e => Raise e
             | Ok _ => Raise (AssertionError "file has already existed.")
             end
         end).
Proof.
  intros Hout Hold Hr. rewrite run_steps, Hout, Hr. cbn.
  destruct (dpp.run_simulations args) as [sims|e]; [|reflexivity].
  destruct (dpp.build_dataset args sims) as [dataset|e]; [|reflexivity].
  by rewrite (save_on_existing _ _ _ _ old).
Qed.

Lemma run_checks_the_output_last_after_simulating :
  dpp.run (Some mock.args) mock.args {[ "o.pkl" := TextFile "earlier run" ]}
  = ({[ "o.pkl" := TextFile "earlier run" ]},
     Raise (AssertionError "file has already existed.")).
Proof.
  assert (({[ "o.pkl" := TextFile "earlier run" ]} : filesystem) !! "o.pkl"
          = Some (TextFile "earlier run")) as Hold by reflexivity.
  exact (run_checks_the_output_last (Some mock.args) mock.args
           {[ "o.pkl" := TextFile "earlier run" ]} "o.pkl" (TextFile "earlier run")
           eq_refl Hold eq_refl).
Defined.


(** A thread count below 2 gives the pool no worker: with its two
    assertions through, [run] raises [ValueError] from [Pool] before it
    builds the configuration or touches a file. *)
Theorem run_needs_two_threads `{Popgen}
    (g_args : option dpp.Args) (args : dpp.Args) (fs : filesystem) :
  is_Some (dpp.out args) ->
  (dpp.rmin args <=? dpp.rmax args)%float = true ->
  (dpp.num_thread args < 2)%Z ->
  dpp.run g_args args fs = (fs, Raise ValueError).
Proof.
  intros Hout Hr Hthreads.
  rewrite run_steps, (bool_decide_eq_true_2 _ Hout), Hr. cbn.
  unfold dpp.run_simulations, Pool.
  destruct (Z.ltb_spec (dpp.num_thread args `div` 2) 1) as [_|Hge]; [reflexivity|].
  assert (dpp.num_thread args `div` 2 < 1)%Z; [|lia].
  apply Z.div_lt_upper_bound; lia.
Qed.

Lemma run_needs_two_threads_single :
  dpp.run None (mock.with_threads 1 mock.args) ∅ = (∅, Raise ValueError).
Proof.
  apply (run_needs_two_threads None (mock.with_threads 1 mock.args) ∅).
  - by eexists.
  - reflexivity.
  - reflexivity.
Defined.

(** ** What [simulate] returns *)

Lemma for_each_count {A S : Type} (count : S -> nat)
    (body : A -> S -> result S) (xs : list A) (s s' : S) :
  (forall x t t', body x t = Ok t' -> count t' = Datatypes.S (count t)) ->
  for_each body xs s = Ok s' -> (count s' = count s + length xs)%nat.
Proof.
  intros Hbody. revert s. induction xs as [|x xs IH]; intros s Hloop; cbn in Hloop.
  - injection Hloop as <-. cbn. lia.
  - bind_inv Hloop. apply Hbody in Hm. apply IH in Hloop. cbn. lia.
Qed.

Lemma for_each_total {A S : Type} (body : A -> S -> result S) (xs : list A) (s : S) :
  (forall x t, x ∈ xs -> exists t', body x t = Ok t') ->
  exists s', for_each body xs s = Ok s'.
Proof.
  revert s. induction xs as [|x xs IH]; intros s Hbody; cbn; [by eexists|].
  destruct (Hbody x s) as [t ->]; [by left|]. cbn.
  apply IH. intros y u Hy. apply Hbody. by right.
Qed.

Lemma length_py_slice {A : Type} (l : list A) (a b : Z) :
  (length (py_slice l a b) <= Z.to_nat (b - a))%nat.
Proof. unfold py_slice. rewrite length_take. lia. Qed.

Section sampling.
Context `{PG : Popgen}.
Implicit Types (configs : configuration) (args : dpp.Args) (st : dpp.samples).

(** One turn of the innermost loop, in full: where the window starts and
    what is appended. *)
Lemma draw_window_drawn configs r seed hap gen st st' :
  dpp.draw_window configs r seed hap gen st = Ok st' ->
  exists start rho,
    (0 <= start < nsites hap - dpp.window_size)%Z
    /\ st' = (st.1.1.1 ++ [slice_columns (matrix hap) start (start + dpp.window_size)],
              st.1.1.2 ++ [py_slice gen start (start + dpp.window_size)],
              st.1.2 ++ [rho], S st.2).
Proof.
  destruct st as [[[haplotypes genealogies] rhos] k]. unfold dpp.draw_window.
  intros Hdraw. do 5 bind_inv Hdraw. injection Hdraw as <-.
  exists a, (a3 * r * (a0 - a1))%float. split; [|done].
  unfold np_random_choice in Hm.
  destruct (Z.leb_spec (nsites hap - dpp.window_size) 0) as [|Hpos]; [discriminate|].
  injection Hm as <-. by apply Z.mod_pos_bound.
Qed.

(** Each haplotype with its genealogy contributes [ndraw] windows. *)
Lemma draws_per_haplotype configs args r seed hap gen st st' :
  for_each (fun _ t => dpp.draw_window configs r seed hap gen t)
           (range (dpp.ndraw args)) st = Ok st' ->
  (length st'.1.2 = length st.1.2 + Z.to_nat (dpp.ndraw args))%nat.
Proof.
  intros Hloop. rewrite <- length_range.
  revert Hloop. apply (for_each_count (fun t => length t.1.2)).
  intros _ t t' (window & trees & rho & ->)%draw_window_appends. cbn.
  rewrite length_app. cbn. lia.
Qed.

Lemma sample_replicate_count configs args r seed data st st' :
  dpp.sample_replicate configs args r seed data st = Ok st' ->
  (exists m, length st.1.2 = m * Z.to_nat (dpp.ndraw args))%nat ->
  (exists m, length st'.1.2 = m * Z.to_nat (dpp.ndraw args))%nat.
Proof.
  intros Hrep Hst. unfold dpp.sample_replicate in Hrep. do 3 bind_inv Hrep.
  revert Hst Hrep.
  apply (for_each_invariant
           (fun t => exists m, length t.1.2 = m * Z.to_nat (dpp.ndraw args))%nat).
  intros [hap gen] t t' [m Hm2] Hdraws%draws_per_haplotype.
  exists (S m). lia.
Qed.

Lemma draw_window_narrow configs r seed hap gen st st' :
  narrow st -> dpp.draw_window configs r seed hap gen st = Ok st' -> narrow st'.
Proof.
  intros [Hh Hg] (start & rho & _ & ->)%draw_window_drawn. split; cbn.
  - apply Forall_app. split; [done|]. constructor; [|done].
    unfold slice_columns. apply Forall_fmap, Forall_forall. intros row _. cbn.
    etransitivity; [apply length_py_slice|]. lia.
  - apply Forall_app. split; [done|]. constructor; [|done].
    etransitivity; [apply length_py_slice|]. lia.
Qed.

Lemma sample_replicate_narrow configs args r seed data st st' :
  narrow st -> dpp.sample_replicate configs args r seed data st = Ok st' ->
  narrow st'.
Proof.
  intros Hst Hrep. unfold dpp.sample_replicate in Hrep. do 3 bind_inv Hrep.
  revert Hrep. apply for_each_invariant; [|done].
  intros [hap gen] t t' Ht. apply for_each_invariant; [|done].
  intros _ u u'. apply draw_window_narrow.
Qed.

(** With a population size in the configuration, a haplotype that is
    [sampleable] always yields its window. *)
Lemma draw_window_total configs r seed hap gen st (size : float) :
  configs !! "population_size" = Some (VFloat size) ->
  sampleable hap ->
  exists st', dpp.draw_window configs r seed hap gen st = Ok st'.
Proof.
  intros Hsize [Hwide Hpos]. destruct st as [[[haplotypes genealogies] rhos] k].
  unfold dpp.draw_window, dpp.window_size in *.
  destruct (choice_in_range seed k (nsites hap - 50)) as (start & -> & Hstart); [lia|].
  cbn.
  destruct (py_index_in_range (positions hap) (start + 50)) as [hi ->]; [lia|]. cbn.
  destruct (py_index_in_range (positions hap) start) as [lo ->]; [lia|]. cbn.
  unfold dict_get. rewrite Hsize. cbn.
  change (float_of_int 2) with (Ok 2%float). cbn. by eexists.
Qed.

End sampling.

Lemma simulate_multiple_of_ndraw `{Popgen}
    (configs : configuration) (args : dpp.Args) (r : float) (seed : nat)
    (haplotypes : list Window) (genealogies : list Genealogy) (rhos : list float) :
  dpp.simulate configs args r seed = Ok (haplotypes, genealogies, rhos) ->
  (exists m, length rhos = m * Z.to_nat (dpp.ndraw args))%nat.
Proof.
  intros Hsim. unfold dpp.simulate in Hsim. do 3 bind_inv Hsim.
  destruct a1 as [[[hs gs] rs] k]. injection Hsim as <- <- <-.
  change rs with (hs, gs, rs, k).1.2. revert Hm1.
  apply (for_each_invariant
           (fun t => exists m, length t.1.2 = m * Z.to_nat (dpp.ndraw args))%nat).
  - intros data t t' Ht Hrep. by eapply sample_replicate_count.
  - by exists 0%nat.
Qed.

(** A [simulate] call that returns has drawn [ndraw] windows for each
    haplotype it was given: its three lists have the same length, a
    multiple of [ndraw], and they are empty when [ndraw <= 0]. *)
Theorem simulate_draws_ndraw_per_haplotype `{Popgen}
    (configs : configuration) (args : dpp.Args) (r : float) (seed : nat)
    (haplotypes : list Window) (genealogies : list Genealogy) (rhos : list float) :
  dpp.simulate configs args r seed = Ok (haplotypes, genealogies, rhos) ->
  (exists m, length rhos = m * Z.to_nat (dpp.ndraw args)
             /\ length haplotypes = length rhos
             /\ length genealogies = length rhos)%nat
  /\ ((dpp.ndraw args <= 0)%Z -> haplotypes = [] /\ genealogies = [] /\ rhos = []).
Proof.
  intros Hsim.
  destruct (simulate_lockstep _ _ _ _ _ _ _ Hsim) as [Hhg Hgr].
  destruct (simulate_multiple_of_ndraw _ _ _ _ _ _ _ Hsim) as [m Hm].
  split; [exists m; lia|].
  intros Hnone. replace (Z.to_nat (dpp.ndraw args)) with 0%nat in Hm by lia.
  rewrite Nat.mul_0_r in Hm.
  destruct rhos; [|done]. destruct genealogies; [|done]. by destruct haplotypes.
Qed.

Lemma simulate_draws_ndraw_per_haplotype_of_two :
  exists haplotypes genealogies rhos,
    dpp.simulate {[ "population_size" := VFloat 1e5 ]} mock.args 1e-9 0
    = Ok (haplotypes, genealogies, rhos)
    /\ (exists m, length rhos = m * 2 /\ length haplotypes = length rhos
                  /\ length genealogies = length rhos)%nat.
Proof.
  destruct (dpp.simulate {[ "population_size" := VFloat 1e5 ]} mock.args 1e-9 0)
    as [[[haplotypes genealogies] rhos]|e] eqn:Hsim; [|vm_compute in Hsim; discriminate].
  exists haplotypes, genealogies, rhos. split; [done|].
  exact (proj1 (simulate_draws_ndraw_per_haplotype _ mock.args _ _ _ _ _ Hsim)).
Defined.

(** No window [simulate] returns is wider than [window_size] (50) sites,
    and no genealogy slice holds more than [window_size] trees. *)
Theorem simulate_windows_are_narrow `{Popgen}
    (configs : configuration) (args : dpp.Args) (r : float) (seed : nat)
    (haplotypes : list Window) (genealogies : list Genealogy) (rhos : list float) :
  dpp.simulate configs args r seed = Ok (haplotypes, genealogies, rhos) ->
  Forall (Forall (fun row => length row <= Z.to_nat dpp.window_size)%nat) haplotypes
  /\ Forall (fun trees => length trees <= Z.to_nat dpp.window_size)%nat genealogies.
Proof.
  unfold dpp.simulate. intros Hsim. do 3 bind_inv Hsim.
  destruct a1 as [[[hs gs] rs] k]. injection Hsim as <- <- <-.
  change (narrow (hs, gs, rs, k)). revert Hm1. apply for_each_invariant.
  - intros data t t'. apply sample_replicate_narrow.
  - by split.
Qed.

Lemma simulate_windows_are_narrow_of_mock :
  exists haplotypes genealogies rhos,
    dpp.simulate {[ "population_size" := VFloat 1e5 ]} mock.args 1e-9 0
    = Ok (haplotypes, genealogies, rhos)
    /\ length haplotypes = 2%nat
    /\ Forall (Forall (fun row => length row <= 50)%nat) haplotypes
    /\ Forall (fun trees => length trees <= 50)%nat genealogies.
Proof.
  destruct (dpp.simulate {[ "population_size" := VFloat 1e5 ]} mock.args 1e-9 0)
    as [[[haplotypes genealogies] rhos]|e] eqn:Hsim; [|vm_compute in Hsim; discriminate].
  exists haplotypes, genealogies, rhos. split; [done|]. split.
  - vm_compute in Hsim. by injection Hsim as <- _ _.
  - exact (simulate_windows_are_narrow _ mock.args _ _ _ _ _ Hsim).
Defined.

(** A haplotype of no more than [window_size] sites leaves nothing to
    draw from: as soon as [simulate] reaches one with [ndraw >= 1], the
    call raises the [ValueError] of [np.random.choice] on an empty range,
    whatever the configuration holds. *)
Theorem simulate_rejects_short_haplotypes `{Popgen}
    (configs : configuration) (args : dpp.Args) (r : float) (seed : nat)
    (sim : SimulatorT) (data data' rep : Replicate) (rest reps : list Replicate)
    (gen : Genealogy) (gens : list Genealogy) :
  Simulator (<["recombination_rate" := VFloat r]> configs) = Ok sim ->
  Simulator_call sim (dpp.npop args) 1 seed = Ok (data :: rest) ->
  filter_replicate data = Ok data' ->
  cut_replicate data' dpp.global_window_size = Ok (rep :: reps) ->
  rentplus (haplotype <$> rep :: reps) (dpp.num_thread args) = Ok (gen :: gens) ->
  (1 <= dpp.ndraw args)%Z ->
  (nsites (haplotype rep) <= dpp.window_size)%Z ->
  dpp.simulate configs args r seed = Raise ValueError.
Proof.
  intros Hsim Hcall Hfilter Hcut Hrent Hdraw Hshort.
  unfold dpp.simulate. rewrite Hsim. cbn. rewrite Hcall. cbn.
  apply bind_Raise, bind_Raise.
  unfold dpp.sample_replicate. rewrite Hfilter. cbn. rewrite Hcut. cbn.
  cbn in Hrent. rewrite Hrent. cbn.
  apply bind_Raise.
  destruct (range_pos (dpp.ndraw args)) as [js ->]; [done|].
  apply for_each_first_raises. unfold dpp.draw_window, np_random_choice.
  destruct (Z.leb_spec (nsites (haplotype rep) - dpp.window_size) 0) as [_|Hpos];
    [reflexivity | lia].
Qed.

Lemma simulate_rejects_short_haplotypes_of_fifty :
  @dpp.simulate mock.types (mock.popgen_of 50)
    {[ "population_size" := VFloat 1e5 ]} mock.args 1e-9 0
  = Raise ValueError.
Proof.
  eapply (@simulate_rejects_short_haplotypes mock.types (mock.popgen_of 50)
            _ mock.args 1e-9 0%nat tt
            (mock.genome_of 50 4) (mock.genome_of 50 4) (mock.genome_of 50 4) [] []);
    try reflexivity; cbn; lia.
Defined.

(** With a population size in the configuration (no demography file),
    [simulate] returns whenever the library does its part: the simulator
    yields its replicates, each is filtered, cut and its genealogies
    inferred, and every haplotype cut out is [sampleable]. *)
Theorem simulate_returns `{Popgen}
    (configs : configuration) (args : dpp.Args) (r : float) (seed : nat)
    (size : float) (sim : SimulatorT) (replicates : list Replicate) :
  configs !! "population_size" = Some (VFloat size) ->
  Simulator (<["recombination_rate" := VFloat r]> configs) = Ok sim ->
  Simulator_call sim (dpp.npop args) 1 seed = Ok replicates ->
  Forall (fun data =>
            exists data' reps gens,
              filter_replicate data = Ok data'
              /\ cut_replicate data' dpp.global_window_size = Ok reps
              /\ rentplus (haplotype <$> reps) (dpp.num_thread args) = Ok gens
              /\ Forall sampleable (haplotype <$> reps)) replicates ->
  exists haplotypes genealogies rhos,
    dpp.simulate configs args r seed = Ok (haplotypes, genealogies, rhos).
Proof.
  intros Hsize Hsim Hcall Hlib.
  unfold dpp.simulate. rewrite Hsim. cbn. rewrite Hcall. cbn.
  destruct (for_each_total
              (dpp.sample_replicate (<["recombination_rate" := VFloat r]> configs)
                 args r seed) replicates ([], [], [], 0%nat))
    as [[[[hs gs] rs] k] ->]; [|cbn; by eauto].
  intros data t Hdata.
  destruct (proj1 (Forall_forall _ _) Hlib data Hdata)
    as (data' & reps & gens & Hfilter & Hcut & Hrent & Hhaps).
  unfold dpp.sample_replicate. rewrite Hfilter. cbn. rewrite Hcut. cbn.
  rewrite Hrent. cbn.
  apply for_each_total. intros [hap gen] u Hpair.
  apply for_each_total. intros _ v _.
  apply draw_window_total with size.
  - by rewrite lookup_insert_ne.
  - apply (proj1 (Forall_forall _ _) Hhaps). by apply elem_of_zip_l in Hpair.
Qed.

Lemma simulate_returns_of_mock :
  exists haplotypes genealogies rhos,
    dpp.simulate {[ "population_size" := VFloat 1e5 ]} mock.args 1e-9 0
    = Ok (haplotypes, genealogies, rhos).
Proof.
  apply (@simulate_returns mock.types mock.popgen
           {[ "population_size" := VFloat 1e5 ]} mock.args 1e-9 0%nat
           1e5 tt [mock.genome 4]); try reflexivity.
  constructor; [|constructor].
  exists (mock.genome 4), [mock.genome 4], [seq 0 52].
  do 3 (split; [reflexivity|]).
  constructor; [|constructor].
  unfold sampleable, dpp.window_size. cbn. lia.
Defined.

(** ** The first rate of the grid, in binary64 *)

Lemma SFeqb_refl (x : spec_float) : x <> S754_nan -> SFeqb x x = true.
Proof.
  destruct x as [s|s| |s m e]; intros Hx; try done; unfold SFeqb; cbn.
  - by destruct s.
  - destruct s; rewrite Z.compare_refl, Pos.compare_cont_refl; reflexivity.
Qed.

Lemma leb_not_nan (x y : float) :
  (x <=? y)%float = true -> Prim2SF x <> S754_nan.
Proof.
  rewrite FloatAxioms.leb_spec. intros Hle Hx. rewrite Hx in Hle. discriminate.
Qed.

Lemma finite_or_zero (x : float) :
  is_finite x = true ->
  (exists s, Prim2SF x = S754_zero s) \/ (exists s m e, Prim2SF x = S754_finite s m e).
Proof.
  unfold is_finite, is_nan, is_infinity.
  rewrite !FloatAxioms.eqb_spec, FloatAxioms.abs_spec.
  change (Prim2SF infinity) with (S754_infinity false).
  destruct (Prim2SF x) as [s|s| |s m e]; eauto.
  - by destruct s.
  - done.
Qed.

Lemma times_zero_plus (q x : float) :
  is_finite q = true -> Prim2SF x <> S754_nan -> (q * 0 + x =? x)%float = true.
Proof.
  intros Hq Hx.
  rewrite FloatAxioms.eqb_spec, FloatAxioms.add_spec, FloatAxioms.mul_spec.
  change (Prim2SF 0) with (S754_zero false).
  assert (exists s, SF64mul (Prim2SF q) (S754_zero false) = S754_zero s) as [s ->].
  { destruct (finite_or_zero q Hq) as [[s ->]|(s & m & e & ->)]; cbn; eauto. }
  destruct (Prim2SF x) as [sx|sx| |sx m e] eqn:Hsx; try done.
  - by destruct s, sx.
  - by destruct sx.
  - unfold SF64add, SFadd. by apply SFeqb_refl.
Qed.

(** In binary64 too the linear grid starts exactly at [rmin]: for
    [nsam >= 2] and [rmax >= rmin] (neither is then a NaN), whenever the
    step [(rmax - rmin) / (nsam - 1)] is finite, the rate of index 0
    compares equal to [rmin]. *)
Theorem const_interpolation_starts_at_rmin (nsam : Z) (rmin rmax : float) :
  (2 <= nsam < float_max_int)%Z ->
  (rmin <=? rmax)%float = true ->
  is_finite ((rmax - rmin)
             / SF2Prim (binary_normalize prec emax (nsam - 1) 0 false)) = true ->
  exists rate,
    dpp.recombination_rate_const_interpolation nsam 0 rmin rmax = Ok rate
    /\ (rate =? rmin)%float = true.
Proof.
  intros Hn Hr Hstep. eexists. split.
  - apply const_interpolation_on_grid; lia.
  - unfold grid_rate.
    change (SF2Prim (binary_normalize prec emax 0 0 false)) with 0%float.
    apply times_zero_plus; [done|]. by eapply leb_not_nan.
Qed.

Lemma const_interpolation_starts_at_rmin_by_default :
  exists rate,
    dpp.recombination_rate_const_interpolation 200 0 1e-9 5e-7 = Ok rate
    /\ (rate =? 1e-9)%float = true.
Proof.
  apply (const_interpolation_starts_at_rmin 200 1e-9 5e-7).
  - by vm_compute.
  - reflexivity.
  - reflexivity.
Defined.

(** ** The two grids over the real numbers *)



(** ** The feature array *)

Lemma three_columns (lds rfs tris : list float) :
  length lds = length rfs -> length rfs = length tris ->
  np_concatenate_last [column lds; column rfs; column tris]
  = Ok (zip_with (fun ld d => [ld; d.1; d.2]) lds (zip rfs tris)).
Proof.
  intros Hlr Hrt. cbn. rewrite !length_column.
  rewrite (proj2 (Nat.eqb_eq _ _) Hrt). cbn.
  rewrite length_zip_with, !length_column, <- Hrt, Nat.min_id.
  rewrite (proj2 (Nat.eqb_eq _ _) Hlr). f_equal.
  clear Hrt. revert rfs tris Hlr.
  induction lds as [|ld lds IH]; intros [|rf rfs] tris Hlr; try done.
  destruct tris as [|tri tris]; cbn; [done|]. f_equal. apply IH. by injection Hlr.
Qed.

Lemma ragged_columns (lds rfs tris : list float) :
  ~ (length lds = length rfs /\ length rfs = length tris) ->
  np_concatenate_last [column lds; column rfs; column tris] = Raise ValueError.
Proof.
  intros Hragged. cbn. rewrite !length_column.
  destruct (Nat.eqb_spec (length rfs) (length tris)) as [Hrt|]; [|reflexivity].
  cbn. rewrite length_zip_with, !length_column, <- Hrt, Nat.min_id.
  destruct (Nat.eqb_spec (length lds) (length rfs)) as [Hlr|]; [|reflexivity].
  by destruct Hragged.
Qed.

(** The feature array [run] assembles has one row [[ld, rf, triplet]] per
    window, in that column order, and the target array the one-entry rows
    of the rhos; when the three statistics come back with different
    lengths the concatenation raises [ValueError] instead. *)
Theorem build_dataset_rows_are_ld_rf_triplet `{Popgen}
    (args : dpp.Args) (haplotypes : list Window) (genealogies : list Genealogy)
    (rhos lds rfs tris : list float) :
  rfdist genealogies (dpp.num_thread args) = Ok rfs ->
  triplet_dist genealogies (dpp.num_thread args) = Ok tris ->
  linkage_disequilibrium haplotypes = Ok lds ->
  (length lds = length rfs /\ length rfs = length tris ->
   dpp.build_dataset args (haplotypes, genealogies, rhos)
   = Ok (zip_with (fun ld d => [ld; d.1; d.2]) lds (zip rfs tris),
         (fun rho => [rho]) <$> rhos))
  /\ (~ (length lds = length rfs /\ length rfs = length tris) ->
      dpp.build_dataset args (haplotypes, genealogies, rhos) = Raise ValueError).
Proof.
  intros Hrf Htri Hld. unfold dpp.build_dataset. rewrite Hrf, Htri, Hld.
  split.
  - intros [Hlr Hrt]. cbn -[np_concatenate_last]. by rewrite three_columns.
  - intros Hragged. cbn -[np_concatenate_last]. by rewrite ragged_columns.
Qed.

Lemma build_dataset_rows_are_ld_rf_triplet_of_two :
  @dpp.build_dataset mock.types mock.popgen mock.args
    ([ [[1%Z]]; [[0%Z]] ], [ [1%nat]; [2%nat] ], [3%float; 4%float])
  = Ok ([ [0.125; 0.5; 0.25]%float; [0.125; 0.5; 0.25]%float ],
        [ [3%float]; [4%float] ]).
Proof.
  apply (@build_dataset_rows_are_ld_rf_triplet mock.types mock.popgen mock.args
           [ [[1%Z]]; [[0%Z]] ] [ [1%nat]; [2%nat] ] [3%float; 4%float]
           [0.125; 0.125]%float [0.5; 0.5]%float [0.25; 0.25]%float);
    try reflexivity.
  by split.
Defined.

(** ** The configurations *)

(** The configuration of the data provider always has four entries: the
    fixed sequence length 5e5, the mutation rate, the ploidy, and either
    the population size (no demography file) or the loaded demography,
    never both and never a recombination rate; it fails only with the
    error of the demography loader. *)
Theorem build_configuration_has_four_entries `{Popgen} (args : dpp.Args) :
  match dpp.build_configuration args with
  | Ok configs =>
      dom configs
      = ({[ "sequence_length"; "rate"; "ploidy";
            match dpp.demography args with
            | Some _ => "demography"
            | None => "population_size"
            end ]} : gset string)
      /\ configs !! "sequence_length" = Some (VFloat 5e5)
      /\ configs !! "rate" = Some (VFloat (dpp.mutation_rate args))
      /\ configs !! "ploidy" = Some (VInt (dpp.ploidy args))
      /\ match dpp.demography args with
         | Some file =>
             exists d, load_demography_from_file file None None = Ok d
                       /\ configs !! "demography" = Some (VDemography d)
         | None => configs !! "population_size" = Some (VFloat (dpp.ne args))
         end
  | Raise e =>
      exists file, dpp.demography args = Some file
                   /\ load_demography_from_file file None None = Raise e
  end.
Proof.
  unfold dpp.build_configuration.
  destruct (dpp.demography args) as [file|].
  - destruct (load_demography_from_file file None None) as [d|e] eqn:Hload; cbn.
    + split; [rewrite !dom_insert_L, dom_empty_L; set_solver|].
      do 3 (split; [done|]). exists d. by rewrite lookup_insert_eq.
    + by exists file.
  - cbn. split; [rewrite !dom_insert_L, dom_empty_L; set_solver|].
    by rewrite lookup_insert_eq.
Qed.

(** The configuration of the test provider always has five entries.  A
    rate map, when given, supplies both the recombination rate and the
    sequence length, so [--recombination-rate] and [--sequence-length] are
    ignored; without a rate map and without [--recombination-rate] the
    recombination rate is [None].  The rate map is loaded before the
    demography. *)
Theorem test_build_configuration_has_five_entries `{Popgen} (args : tp.Args) :
  (forall configs,
      tp.build_configuration args = Ok configs ->
      dom configs
      = ({[ "rate"; "ploidy"; "recombination_rate"; "sequence_length";
            match tp.demography args with
            | Some _ => "demography"
            | None => "population_size"
            end ]} : gset string)
      /\ match tp.rate_map args with
         | Some file =>
             exists map, load_recombination_map_from_file file = Ok map
                         /\ configs !! "recombination_rate" = Some (VRateMap map)
                         /\ configs !! "sequence_length"
                            = Some (VFloat (map_sequence_length map))
         | None =>
             configs !! "recombination_rate"
             = Some (from_option VFloat VNone (tp.recombination_rate args))
             /\ configs !! "sequence_length" = Some (VFloat (tp.sequence_length args))
         end)
  /\ (forall file e,
        tp.rate_map args = Some file ->
        load_recombination_map_from_file file = Raise e ->
        tp.build_configuration args = Raise e).
Proof.
  split.
  - intros configs. unfold tp.build_configuration.
    destruct (tp.rate_map args) as [file|].
    + destruct (load_recombination_map_from_file file) as [map|e] eqn:Hmap;
        [cbn|discriminate].
      destruct (tp.demography args) as [dfile|].
      * intros Hd. bind_inv Hd. injection Hd as <-.
        split; [rewrite !dom_insert_L, dom_empty_L; set_solver|].
        exists map. by rewrite !lookup_insert_ne, lookup_insert_eq by done.
      * intros [= <-].
        split; [rewrite !dom_insert_L, dom_empty_L; set_solver|].
        exists map. by rewrite !lookup_insert_ne, lookup_insert_eq by done.
    + cbn. destruct (tp.demography args) as [dfile|].
      * intros Hd. bind_inv Hd. injection Hd as <-.
        split; [rewrite !dom_insert_L, dom_empty_L; set_solver|].
        by rewrite !lookup_insert_ne, lookup_insert_eq by done.
      * intros [= <-].
        split; [rewrite !dom_insert_L, dom_empty_L; set_solver|].
        by rewrite !lookup_insert_ne, lookup_insert_eq by done.
  - intros file e Hfile Hload. unfold tp.build_configuration.
    by rewrite Hfile, Hload.
Qed.

(** ** The test provider's run *)

Section test_run.
Context `{PG : Popgen}.
Implicit Types (fs : filesystem) (args : tp.Args).

Lemma assert_supplied_file fs (file : option string) :
  tp.assert_supplied_file_exists file fs
  = (fs, if supplied_but_missing fs file then Raise (AssertionError "") else Ok tt).
Proof.
  destruct file as [p|]; [|reflexivity]. cbn. io_steps.
  by destruct (bool_decide (is_Some (fs !! p))).
Qed.

(** [run], step by step: the three assertions, the configuration, the
    genome, and then the output file, opened before the VCF is written. *)
Lemma test_run_steps args fs :
  tp.run args fs
  = if negb (bool_decide (is_Some (tp.out args)))
    then (fs, Raise (AssertionError "no output name."))
    else if supplied_but_missing fs (tp.demography args)
    then (fs, Raise (AssertionError ""))
    else if supplied_but_missing fs (tp.rate_map args)
    then (fs, Raise (AssertionError ""))
    else match tp.build_configuration args with
         | Raise e => (fs, Raise e)
         | Ok configs =>
             match tp.simulate_single_genome configs args 0 with
             | Raise e => (fs, Raise e)
             | Ok genome =>
                 match write_vcf genome with
                 | Raise e => (<[default "" (tp.out args) := TextFile ""]> fs, Raise e)
                 | Ok vcf => (<[default "" (tp.out args) := TextFile vcf]> fs, Ok tt)
                 end
             end
         end.
Proof.
  unfold tp.run.
  destruct (bool_decide (is_Some (tp.out args))); [|reflexivity].
  unfold mbind at 1, io_bind at 1. cbn.
  unfold mbind at 1, io_bind at 1. rewrite assert_supplied_file.
  destruct (supplied_but_missing fs (tp.demography args)); [reflexivity|].
  unfold mbind at 1, io_bind at 1. rewrite assert_supplied_file.
  destruct (supplied_but_missing fs (tp.rate_map args)); [reflexivity|].
  io_steps.
  destruct (tp.build_configuration args) as [configs|e]; [|reflexivity].
  destruct (tp.simulate_single_genome configs args 0) as [genome|e]; [|reflexivity].
  destruct (write_vcf genome) as [vcf|e]; [|reflexivity].
  by rewrite insert_insert_eq.
Qed.

End test_run.



(** The test provider's [run] touches no path but its output: the file
    system after it is the one before, or the one before with a text file
    at the output path. *)
Theorem test_run_only_writes_its_output `{Popgen}
    (args : tp.Args) (fs : filesystem) :
  (tp.run args fs).1 = fs
  \/ exists p text,
       tp.out args = Some p /\ (tp.run args fs).1 = <[p := TextFile text]> fs.
Proof.
  rewrite test_run_steps.
  destruct (tp.out args) as [p|]; [cbn|by left].
  destruct (supplied_but_missing fs (tp.demography args)); [by left|].
  destruct (supplied_but_missing fs (tp.rate_map args)); [by left|].
  destruct (tp.build_configuration args) as [configs|e]; [|by left].
  destruct (tp.simulate_single_genome configs args 0) as [genome|e]; [|by left].
  right. destruct (write_vcf genome) as [vcf|e]; by eauto.
Qed.



(** ** The size of the training set *)

Section training_rows.
Context `{PG : Popgen}.
Implicit Types (configs : configuration) (args : dpp.Args).

Lemma paras_carry_args configs args ps :
  dpp.paras configs args = Ok ps -> Forall (fun para => para.1.2 = args) ps.
Proof.
  unfold dpp.paras. rewrite mapM_Ok. generalize (range (dpp.nsam args)).
  intros indices. induction 1 as [|i para indices ps Hpara _ IH]; constructor; [|done].
  bind_inv Hpara. by injection Hpara as <-.
Qed.

Lemma starmap_multiples args ps results :
  Forall (fun para => para.1.2 = args) ps ->
  dpp.starmap ps = Ok results ->
  Forall (fun res => exists m, length res.2 = m * Z.to_nat (dpp.ndraw args))%nat results.
Proof.
  unfold dpp.starmap. rewrite mapM_Ok. intros Hargs Hcalls.
  apply Forall_lookup. intros i [[h g] rh] Hres.
  destruct (Forall2_lookup_r _ _ _ _ _ Hcalls Hres) as ([j [[c a] r]] & Hpara & Hcall).
  rewrite list_lookup_imap in Hpara.
  destruct (ps !! i) as [para|] eqn:Hi; [|done]. injection Hpara as <- ->.
  apply (proj1 (Forall_lookup _ _) Hargs) in Hi. cbn in Hi. subst a.
  cbn. by eapply simulate_multiple_of_ndraw.
Qed.

Lemma concat_multiples (n : nat) (rhos : list (list float)) :
  Forall (fun rh => exists m, length rh = m * n)%nat rhos ->
  (exists m, length (concat rhos) = m * n)%nat.
Proof.
  induction 1 as [|rh rhos [m Hm] _ [k Hk]]; cbn; [by exists 0%nat|].
  exists (m + k)%nat. rewrite length_app. lia.
Qed.

End training_rows.

(** The simulations of [run] gather a multiple of [ndraw] samples: [ndraw]
    for every haplotype window of every grid point, with as many
    haplotype windows and genealogies as rhos. *)
Theorem run_gathers_multiples_of_ndraw `{Popgen}
    (args : dpp.Args) (haplotypes : list Window) (genealogies : list Genealogy)
    (rhos : list float) :
  dpp.run_simulations args = Ok (haplotypes, genealogies, rhos) ->
  (exists m, length rhos = m * Z.to_nat (dpp.ndraw args)
             /\ length haplotypes = length rhos
             /\ length genealogies = length rhos)%nat.
Proof.
  intros Hrun.
  destruct (run_simulations_lockstep _ _ _ _ Hrun) as [Hhg Hgr].
  unfold dpp.run_simulations in Hrun. do 4 bind_inv Hrun.
  rewrite aggregate_concat in Hrun. injection Hrun as _ _ <-.
  apply paras_carry_args in Hm1.
  pose proof (starmap_multiples _ _ _ Hm1 Hm2) as Hall.
  destruct (concat_multiples (Z.to_nat (dpp.ndraw args)) ((fun res => res.2) <$> a2))
    as [m Hm3]; [by apply Forall_fmap|].
  exists m. lia.
Qed.

Lemma run_gathers_multiples_of_ndraw_of_mock :
  exists haplotypes genealogies rhos,
    dpp.run_simulations mock.args = Ok (haplotypes, genealogies, rhos)
    /\ length rhos = 6%nat
    /\ (exists m, length rhos = m * 2 /\ length haplotypes = length rhos
                  /\ length genealogies = length rhos)%nat.
Proof.
  destruct (dpp.run_simulations mock.args)
    as [[[haplotypes genealogies] rhos]|e] eqn:Hrun; [|vm_compute in Hrun; discriminate].
  exists haplotypes, genealogies, rhos. split; [done|]. split.
  - vm_compute in Hrun. by injection Hrun as _ _ <-.
  - exact (run_gathers_multiples_of_ndraw mock.args _ _ _ Hrun).
Defined.

(** [save_training_data] writes only once the split has returned, and
    only at its own path: a split that raises leaves the file system as it
    was, and no call changes any other path. *)
Theorem save_training_data_writes_after_the_split `{Popgen}
    (g_args : option dpp.Args) (path : option string) (x y : array)
    (fs : filesystem) :
  (forall e, train_test_split x y 0.2 = Raise e ->
             (dpp.save_training_data g_args path (x, y) fs).1 = fs
             /\ (dpp.save_training_data g_args path (x, y) fs).2 <> Ok tt)
  /\ (forall q, path <> Some q ->
                (dpp.save_training_data g_args path (x, y) fs).1 !! q = fs !! q).
Proof.
  split; [|intros q; apply save_frame].
  intros e Hsplit. destruct path as [p|]; [|by rewrite save_without_path].
  destruct (fs !! p) as [old|] eqn:Hp.
  - by rewrite (save_on_existing _ _ _ _ old).
  - by rewrite save_on_fresh, Hsplit.
Qed.

(** ** The scaled rho of a window *)

Lemma py_index_nonneg {A : Type} (l : list A) (i : Z) (a : A) :
  (0 <= i)%Z -> py_index l i = Ok a -> l !! Z.to_nat i = Some a.
Proof.
  intros Hi. unfold py_index.
  destruct (Z.ltb_spec i 0) as [|_]; [lia|].
  destruct (Z.ltb_spec i 0) as [|_]; [lia|].
  destruct (l !! Z.to_nat i); [|discriminate]. by intros [= ->].
Qed.

(** Each turn of [simulate]'s innermost loop draws a start site below
    [nsites - window_size] and records for it the haplotype columns
    [start .. start + window_size], the same slice of the genealogy, and
    the scaled rho [2 * population_size * r * length], where [length] is
    the distance between the positions of the sites [start + window_size]
    and [start]. *)
Theorem draw_window_records_scaled_rho `{Popgen}
    (configs : configuration) (r : float) (seed : nat) (hap : Haplotype)
    (gen : Genealogy) (st st' : dpp.samples) (size : float) :
  configs !! "population_size" = Some (VFloat size) ->
  dpp.draw_window configs r seed hap gen st = Ok st' ->
  exists start hi lo,
    (0 <= start < nsites hap - dpp.window_size)%Z
    /\ positions hap !! Z.to_nat (start + dpp.window_size) = Some hi
    /\ positions hap !! Z.to_nat start = Some lo
    /\ st' = (st.1.1.1 ++ [slice_columns (matrix hap) start (start + dpp.window_size)],
              st.1.1.2 ++ [py_slice gen start (start + dpp.window_size)],
              st.1.2 ++ [(2 * size * r * (hi - lo))%float],
              S st.2).
Proof.
  intros Hsize Hdraw. destruct st as [[[haplotypes genealogies] rhos] k].
  unfold dpp.draw_window in Hdraw. do 5 bind_inv Hdraw. injection Hdraw as <-.
  assert (0 <= a < nsites hap - dpp.window_size)%Z as Hstart.
  { unfold np_random_choice in Hm.
    destruct (Z.leb_spec (nsites hap - dpp.window_size) 0) as [|Hpos]; [discriminate|].
    injection Hm as <-. by apply Z.mod_pos_bound. }
  unfold dict_get in Hm2. rewrite Hsize in Hm2. injection Hm2 as <-.
  cbn in Hm3. change (float_of_int 2) with (Ok 2%float) in Hm3. cbn in Hm3.
  injection Hm3 as <-.
  unfold dpp.window_size in *.
  apply py_index_nonneg in Hm0; [|lia]. apply py_index_nonneg in Hm1; [|lia].
  exists a, a0, a1. by repeat split; try lia.
Qed.

Lemma draw_window_records_scaled_rho_of_mock :
  exists start hi lo,
    (0 <= start < 2)%Z
    /\ positions (mock.genome 4) !! Z.to_nat (start + 50) = Some hi
    /\ positions (mock.genome 4) !! Z.to_nat start = Some lo
    /\ @dpp.draw_window mock.types mock.popgen
         {[ "population_size" := VFloat 1e5 ]} 1e-9 0
         (mock.genome 4) (seq 0 52) ([], [], [], 0%nat)
       = Ok ([slice_columns (matrix (mock.genome 4)) start (start + 50)],
             [py_slice (seq 0 52) start (start + 50)],
             [(2 * 1e5 * 1e-9 * (hi - lo))%float], 1%nat).
Proof.
  destruct (@dpp.draw_window mock.types mock.popgen
              {[ "population_size" := VFloat 1e5 ]} 1e-9 0
              (mock.genome 4) (seq 0 52) ([], [], [], 0%nat)) as [st'|e] eqn:Hdraw;
    [|vm_compute in Hdraw; discriminate].
  assert (({[ "population_size" := VFloat 1e5 ]} : configuration) !! "population_size"
          = Some (VFloat 1e5)) as Hsize by reflexivity.
  destruct (@draw_window_records_scaled_rho mock.types mock.popgen
              {[ "population_size" := VFloat 1e5 ]} 1e-9 0%nat (mock.genome 4)
              (seq 0 52) ([], [], [], 0%nat) st' 1e5 Hsize Hdraw)
    as (start & hi & lo & Hstart & Hhi & Hlo & ->).
  by exists start, hi, lo.
Defined.
